(** * Medical laboratory: access policy, patient provisioning, analysis lifecycle

    A shallow embedding of the Django application under [src/]:
    - [users/models.py]      : [User] and its derived role properties;
    - [medical_lab/models.py]: [Patient] (with [age] and [save]) and
                               [Analysis] (with [save]);
    - [medical_lab/signals.py]: the [pre_save] receiver
                               [handle_analysis_status_change];
    - [medical_lab/forms.py], [users/forms.py]: the birth-date validators
                               and [PatientWithUserForm.save];
    - [medical_lab/serializers.py]: which fields the serializers write;
    - [medical_lab/views.py] : permission classes, the two view sets and the
                               HTML views.

    Tables are lists of rows in insertion order, each row carrying its
    primary key.  Python exceptions are values of [exn]; an operation that
    touches the database is a function from the store to a result and the
    store it leaves behind (Django runs in autocommit mode: what was written
    before an exception stays written).  The clock is an input: an operation
    that reads [date.today()] takes the day [today], one that reads
    [timezone.now()] takes the instant [now] of the request. *)

From Stdlib Require Import ZArith List String Bool Arith Lia.
Import ListNotations.

Local Open Scope string_scope.
Local Open Scope Z_scope.

(** ** Python values and exceptions *)

Inductive exn : Type :=
| ValueError
| TypeError
| AttributeError
| DoesNotExist
| MultipleObjectsReturned
| IntegrityError
| ValidationError.

Inductive result (A : Type) : Type :=
| Ok (a : A)
| Raise (e : exn).

Arguments Ok {A} a.
Arguments Raise {A} e.

Definition is_ok {A} (r : result A) : bool :=
  match r with Ok _ => true | Raise _ => false end.

(** ** [datetime.date] *)

Record date : Type := mkdate { year : Z; month : Z; day : Z }.

Definition is_leap (y : Z) : bool :=
  (y mod 4 =? 0) && (negb (y mod 100 =? 0) || (y mod 400 =? 0)).

Definition days_in_month (y m : Z) : Z :=
  if m =? 2 then (if is_leap y then 29 else 28)
  else if (m =? 4) || (m =? 6) || (m =? 9) || (m =? 11) then 30
  else 31.

Definition date_fields_ok (y m d : Z) : bool :=
  (1 <=? y) && (y <=? 9999) && (1 <=? m) && (m <=? 12)
  && (1 <=? d) && (d <=? days_in_month y m).

(** The constructor [date(y, m, d)]: [ValueError] outside the calendar. *)
Definition date_new (y m d : Z) : result date :=
  if date_fields_ok y m d then Ok (mkdate y m d) else Raise ValueError.

Definition date_valid (x : date) : Prop :=
  date_fields_ok (year x) (month x) (day x) = true.

(** [a < b] and [a > b] on dates compare (year, month, day). *)
Definition date_ltb (a b : date) : bool :=
  (year a <? year b)
  || ((year a =? year b)
      && ((month a <? month b)
          || ((month a =? month b) && (day a <? day b)))).

Definition date_gtb (a b : date) : bool := date_ltb b a.

Definition date_leb (a b : date) : bool := negb (date_ltb b a).

Definition days_before_year (y : Z) : Z :=
  let p := y - 1 in p * 365 + p / 4 - p / 100 + p / 400.

Fixpoint days_before_month_aux (y : Z) (k : nat) : Z :=
  match k with
  | O => 0
  | S k' => days_before_month_aux y k' + days_in_month y (Z.of_nat k)
  end.

Definition days_before_month (y m : Z) : Z :=
  days_before_month_aux y (Z.to_nat (m - 1)).

Definition toordinal (x : date) : Z :=
  days_before_year (year x) + days_before_month (year x) (month x) + day x.

(** [(a - b).days] *)
Definition days_between (a b : date) : Z := toordinal a - toordinal b.

(** A model attribute that holds either nothing, a [date], or a string
    (Django does not convert a value assigned to a [DateField] until the
    row is written). *)
Inductive pyval : Type :=
| PNone
| PDate (d : date)
| PStr (s : string).

Definition truthy (v : pyval) : bool :=
  match v with
  | PNone => false
  | PDate _ => true
  | PStr s => negb (s =? "")%string
  end.

(** [v > today] where [today] is a [date]: only another [date] can be
    ordered against it. *)
Definition pyval_gt_date (v : pyval) (today : date) : result bool :=
  match v with
  | PDate d => Ok (date_gtb d today)
  | PNone | PStr _ => Raise TypeError
  end.

(** ** users/models.py *)

Record User : Type := mkUser {
  u_pk : nat;
  u_email : string;
  u_last_name : string;
  u_first_name : string;
  u_birth_date : option date;
  u_gender : string;
  u_phone : option string;
  u_is_superuser : bool;
  u_groups : list string
}.

Definition in_group (name : string) (u : User) : bool :=
  existsb (String.eqb name) (u_groups u).

Definition is_administrator (u : User) : bool :=
  in_group "administrators" u || u_is_superuser u.

Definition is_moderator (u : User) : bool :=
  in_group "moderators" u.

Definition is_regular_user (u : User) : bool :=
  negb (is_administrator u || is_moderator u).

(** [request.user]: the anonymous user or a stored account. *)
Inductive RequestUser : Type :=
| AnonymousUser
| Account (u : User).


(** ** medical_lab/models.py: rows *)

Record Patient : Type := mkPatient {
  p_pk : option nat;
  p_last_name : string;
  p_first_name : string;
  p_birth_date : pyval;
  p_gender : string;
  p_phone : option string;
  p_email : option string;
  p_created_by : nat
}.

Record Analysis : Type := mkAnalysis {
  a_pk : option nat;
  a_patient : nat;
  a_analysis_type : nat;
  a_status : string;
  a_completion_date : option Z;
  a_result : string;
  a_notes : string;
  a_lab_technician : option nat
}.

Definition STATUS_CHOICES : list (string * string) :=
  [ ("registered", "Registered");
    ("in_progress", "In progress");
    ("completed", "Completed");
    ("cancelled", "Cancelled") ].

(** [Patient.age], read on the day [today]. *)
Definition Patient_age (today : date) (self : Patient) : result (option Z) :=
  if negb (truthy (p_birth_date self)) then Ok None
  else
    match p_birth_date self with
    | PDate b =>
        let age := year today - year b in
        match date_new (year today) (month b) (day b) with
        | Raise e => Raise e
        | Ok birthday =>
            if date_ltb today birthday then Ok (Some (age - 1))
            else Ok (Some age)
        end
    | PNone | PStr _ => Raise AttributeError
    end.

(** ** The store and the monad of database operations *)

(** A message in [django.core.mail.outbox], which the tests read. *)
Record EmailMessage : Type := mkEmail {
  m_analysis : option nat;
  m_to : list (option string)
}.

Record Store : Type := mkStore {
  users : list User;
  group_names : list string;
  patients : list Patient;
  analyses : list Analysis;
  outbox : list EmailMessage
}.

Definition M (A : Type) : Type := Store -> result A * Store.

Definition ret {A} (a : A) : M A := fun st => (Ok a, st).

Definition raise {A} (e : exn) : M A := fun st => (Raise e, st).

Definition bind {A B} (m : M A) (k : A -> M B) : M B :=
  fun st =>
    match m st with
    | (Ok a, st') => k a st'
    | (Raise e, st') => (Raise e, st')
    end.

Notation "x <- m ;; k" := (bind m (fun x => k))
  (at level 61, m at next level, right associativity).

Definition set_patients (ps : list Patient) (st : Store) : Store :=
  mkStore (users st) (group_names st) ps (analyses st) (outbox st).

Definition set_analyses (xs : list Analysis) (st : Store) : Store :=
  mkStore (users st) (group_names st) (patients st) xs (outbox st).

Definition set_users (us : list User) (st : Store) : Store :=
  mkStore us (group_names st) (patients st) (analyses st) (outbox st).

(** Primary keys: the next key of a table is one more than the largest
    key handed out so far. *)
Definition pk_of (o : option nat) : nat :=
  match o with Some n => n | None => O end.

Definition next_pk (keys : list nat) : nat := S (fold_right Nat.max O keys).

Definition has_pk (pk : nat) (o : option nat) : bool :=
  match o with Some n => Nat.eqb n pk | None => false end.

Definition find_patient (pk : nat) (st : Store) : option Patient :=
  find (fun p => has_pk pk (p_pk p)) (patients st).

Definition find_analysis (pk : nat) (st : Store) : option Analysis :=
  find (fun a => has_pk pk (a_pk a)) (analyses st).

Fixpoint replace_row {A} (hit : A -> bool) (new : A) (rows : list A) : list A :=
  match rows with
  | [] => []
  | r :: rest => if hit r then new :: rest else r :: replace_row hit new rest
  end.

(** ** medical_lab/models.py: [Patient.save] *)

(** [models.Model.save] for a [Patient]: the column is a non-null DATE, so
    only a [date] can be written.  (A non-empty string never gets here:
    [Patient_save] below has raised before.) *)
Definition Model_save_patient (self : Patient) : M Patient :=
  fun st =>
    match p_birth_date self with
    | PNone => (Raise IntegrityError, st)
    | PStr _ => (Raise ValidationError, st)
    | PDate _ =>
        match p_pk self with
        | Some pk =>
            match find_patient pk st with
            | Some _ =>
                (Ok self,
                 set_patients
                   (replace_row (fun p => has_pk pk (p_pk p)) self (patients st))
                   st)
            | None => (Ok self, set_patients (patients st ++ [self]) st)
            end
        | None =>
            let pk := next_pk (map (fun p => pk_of (p_pk p)) (patients st)) in
            let row := mkPatient (Some pk) (p_last_name self)
                         (p_first_name self) (p_birth_date self)
                         (p_gender self) (p_phone self) (p_email self)
                         (p_created_by self) in
            (Ok row, set_patients (patients st ++ [row]) st)
        end
    end.

Definition Patient_save (today : date) (self : Patient) : M Patient :=
  if truthy (p_birth_date self) then
    match pyval_gt_date (p_birth_date self) today with
    | Raise e => raise e
    | Ok true => raise ValueError
    | Ok false => Model_save_patient self
    end
  else Model_save_patient self.

(** ** medical_lab/models.py and signals.py: saving an [Analysis] *)

Definition with_completion_date (t : option Z) (a : Analysis) : Analysis :=
  mkAnalysis (a_pk a) (a_patient a) (a_analysis_type a) (a_status a) t
             (a_result a) (a_notes a) (a_lab_technician a).

Definition with_status (s : string) (a : Analysis) : Analysis :=
  mkAnalysis (a_pk a) (a_patient a) (a_analysis_type a) s
             (a_completion_date a) (a_result a) (a_notes a)
             (a_lab_technician a).

Definition with_pk (pk : nat) (a : Analysis) : Analysis :=
  mkAnalysis (Some pk) (a_patient a) (a_analysis_type a) (a_status a)
             (a_completion_date a) (a_result a) (a_notes a)
             (a_lab_technician a).

Definition isNone {A} (o : option A) : bool :=
  match o with None => true | Some _ => false end.

(** [instance.send_completion_email()]: [class Analysis] (models.py,
    lines 167-268) defines its fields, [__str__] and [save], and no method
    of this name; neither does [models.Model].  The attribute lookup
    raises [AttributeError] before anything is sent. *)
Definition send_completion_email (self : Analysis) : M unit :=
  raise AttributeError.

(** The [pre_save] receiver, connected to [Analysis] by its decorator.  It
    mutates [instance]; the mutated instance is the returned value.  Its
    [try] catches [Analysis.DoesNotExist] only, so the [AttributeError] of
    [send_completion_email] leaves the receiver and [save]. *)
Definition handle_analysis_status_change (now : Z) (instance : Analysis)
  : M Analysis :=
  match a_pk instance with
  | None => ret instance
  | Some pk =>
      fun st =>
        match find_analysis pk st with
        | None => (Ok instance, st)
        | Some old_instance =>
            if negb (a_status old_instance =? "completed")%string
               && (a_status instance =? "completed")%string
            then
              let instance' :=
                if isNone (a_completion_date instance)
                then with_completion_date (Some now) instance
                else instance in
              (_ <- send_completion_email instance' ;; ret instance') st
            else (Ok instance, st)
        end
  end.

(** [models.Model.save] for an [Analysis]: run the [pre_save] receivers,
    then update the row with this key, or insert. *)
Definition Model_save_analysis (now : Z) (self : Analysis) : M Analysis :=
  instance <- handle_analysis_status_change now self ;;
  fun st =>
    match a_pk instance with
    | Some pk =>
        match find_analysis pk st with
        | Some _ =>
            (Ok instance,
             set_analyses
               (replace_row (fun a => has_pk pk (a_pk a)) instance (analyses st))
               st)
        | None => (Ok instance, set_analyses (analyses st ++ [instance]) st)
        end
    | None =>
        let pk := next_pk (map (fun a => pk_of (a_pk a)) (analyses st)) in
        let row := with_pk pk instance in
        (Ok row, set_analyses (analyses st ++ [row]) st)
    end.

Definition Analysis_save (now : Z) (self : Analysis) : M Analysis :=
  let self' :=
    if (a_status self =? "completed")%string && isNone (a_completion_date self)
    then with_completion_date (Some now) self
    else self in
  Model_save_analysis now self'.

(** ** medical_lab/views.py: permission classes *)

Definition IsAdministrator (r : RequestUser) : bool :=
  match r with
  | AnonymousUser => false
  | Account u => is_administrator u
  end.

Definition IsModerator (r : RequestUser) : bool :=
  match r with
  | AnonymousUser => false
  | Account u => is_moderator u
  end.

Definition IsRegularUser (r : RequestUser) : bool :=
  match r with
  | AnonymousUser => false
  | Account u => is_regular_user u
  end.

Definition IsAdministratorOrModerator (r : RequestUser) : bool :=
  match r with
  | AnonymousUser => false
  | Account u => is_administrator u || is_moderator u
  end.

(** [self.action]: a standard action of a model view set, or an extra
    action under the name of its method. *)
Inductive action : Type :=
| act_list | act_retrieve | act_create | act_update | act_partial_update
| act_destroy
| act_extra (name : string).

(** [get_permissions] of each view set, evaluated at the request level
    ([has_permission]).  [IsOwnerOrAdministratorOrModerator] only defines
    [has_object_permission], so at this level it lets every request pass.

    Both view sets override [get_permissions] and choose by [self.action]
    alone.  The [permission_classes] argument of an [@action] decorator is
    stored on the view as [self.permission_classes], which only the
    inherited [get_permissions] reads; with the override in place an extra
    action such as [set_status] takes the final [else] branch. *)
Definition PatientViewSet_get_permissions (a : action) (r : RequestUser)
  : bool :=
  match a with
  | act_list | act_retrieve => IsAdministratorOrModerator r || IsRegularUser r
  | act_create => IsModerator r
  | act_update | act_partial_update => true
  | act_destroy | act_extra _ => IsAdministrator r
  end.

Definition AnalysisViewSet_get_permissions (a : action) (r : RequestUser)
  : bool :=
  match a with
  | act_list | act_retrieve => IsAdministratorOrModerator r || IsRegularUser r
  | act_create => IsModerator r || IsRegularUser r
  | act_update | act_partial_update => true
  | act_destroy | act_extra _ => IsAdministrator r
  end.

(** The permissions that guard a call of [set_status]: those of
    [get_permissions] for [self.action = 'set_status']. *)
Definition set_status_permission (r : RequestUser) : bool :=
  AnalysisViewSet_get_permissions (act_extra "set_status") r.

(** ** Responses *)

Inductive Response (A : Type) : Type :=
| HTTP_200_OK (data : A)
| HTTP_201_CREATED (data : A)
| HTTP_400_BAD_REQUEST
| HTTP_403_FORBIDDEN
| HTTP_404_NOT_FOUND.

Arguments HTTP_200_OK {A} data.
Arguments HTTP_201_CREATED {A} data.
Arguments HTTP_400_BAD_REQUEST {A}.
Arguments HTTP_403_FORBIDDEN {A}.
Arguments HTTP_404_NOT_FOUND {A}.

Definition is_error_response {A} (r : Response A) : bool :=
  match r with
  | HTTP_200_OK _ | HTTP_201_CREATED _ => false
  | _ => true
  end.

(** ** medical_lab/views.py: query sets *)

Definition created_by_is (uid : nat) (p : Patient) : bool :=
  Nat.eqb (p_created_by p) uid.

(** The join [patient__created_by = user] *)
Definition patient_created_by_is (st : Store) (uid : nat) (a : Analysis)
  : bool :=
  match find_patient (a_patient a) st with
  | Some p => created_by_is uid p
  | None => false
  end.

Definition PatientViewSet_get_queryset (r : RequestUser) (st : Store)
  : list Patient :=
  match r with
  | AnonymousUser => []
  | Account user =>
      if is_administrator user then patients st
      else if is_moderator user then patients st
      else if is_regular_user user
           then filter (created_by_is (u_pk user)) (patients st)
           else []
  end.

Definition AnalysisViewSet_get_queryset (r : RequestUser) (st : Store)
  : list Analysis :=
  match r with
  | AnonymousUser => []
  | Account user =>
      if is_administrator user then analyses st
      else if is_moderator user then analyses st
      else if is_regular_user user
           then filter (patient_created_by_is st (u_pk user)) (analyses st)
           else []
  end.



(** The HTML list views [patients_list] and [analyses_list]: [None] is the
    redirect to the login page; [extra] stands for the search filters of
    the query string, which only narrow the role-scoped query set. *)
Definition patients_list (r : RequestUser) (extra : Patient -> bool)
  (st : Store) : option (list Patient) :=
  match r with
  | AnonymousUser => None
  | Account user =>
      let scoped :=
        if is_administrator user || is_moderator user then patients st
        else if is_regular_user user
             then filter (created_by_is (u_pk user)) (patients st)
             else [] in
      Some (filter extra scoped)
  end.

Definition analyses_list (r : RequestUser) (extra : Analysis -> bool)
  (st : Store) : option (list Analysis) :=
  match r with
  | AnonymousUser => None
  | Account user =>
      let scoped :=
        if is_administrator user || is_moderator user then analyses st
        else if is_regular_user user
             then filter (patient_created_by_is st (u_pk user)) (analyses st)
             else [] in
      Some (filter extra scoped)
  end.

(** ** medical_lab/views.py: [AnalysisViewSet.set_status] *)

(** A value of a JSON request body. *)
#[warnings="-register-all"]
Inductive json : Type :=
| JNull
| JBool (b : bool)
| JNumber (n : Z)
| JString (s : string)
| JArray (items : list json)
| JObject (members : list (string * json)).

(** [new_status in dict(Analysis.STATUS_CHOICES)], for
    [new_status = request.data.get('status')]: [None] stands for a body
    without the key.  The test hashes the value: [None], a boolean and a
    number are no key of the dictionary, a string is looked up, and a list
    or an object is unhashable, which raises [TypeError]. *)
Definition in_STATUS_CHOICES (new_status : option json) : result bool :=
  match new_status with
  | None | Some JNull | Some (JBool _) | Some (JNumber _) => Ok false
  | Some (JString s) =>
      Ok (existsb (fun kv => String.eqb s (fst kv)) STATUS_CHOICES)
  | Some (JArray _) | Some (JObject _) => Raise TypeError
  end.

(** The values the membership test can hash. *)
Definition hashable (new_status : option json) : bool :=
  match new_status with
  | Some (JArray _) | Some (JObject _) => false
  | _ => true
  end.

(** [self.get_object()]: the row with this key within the query set. *)
Definition AnalysisViewSet_get_object (r : RequestUser) (pk : nat)
  (st : Store) : option Analysis :=
  find (fun a => has_pk pk (a_pk a)) (AnalysisViewSet_get_queryset r st).

(** The view catches nothing: an exception of the membership test or of
    [save] leaves it. *)
Definition AnalysisViewSet_set_status (now : Z) (r : RequestUser) (pk : nat)
  (new_status : option json) : M (Response Analysis) :=
  if negb (set_status_permission r) then ret HTTP_403_FORBIDDEN
  else
    fun st =>
      match AnalysisViewSet_get_object r pk st with
      | None => (Ok HTTP_404_NOT_FOUND, st)
      | Some analysis =>
          match in_STATUS_CHOICES new_status with
          | Raise e => (Raise e, st)
          | Ok false => (Ok HTTP_400_BAD_REQUEST, st)
          | Ok true =>
              match new_status with
              | Some (JString s) =>
                  (saved <- Analysis_save now (with_status s analysis) ;;
                   ret (HTTP_200_OK saved)) st
              | _ => (Ok HTTP_400_BAD_REQUEST, st)
              end
          end
      end.

(** ** Self-provisioning of a Patient *)

(** [x or default] on strings and on an optional date with a string
    default *)
Definition or_str (x default : string) : string :=
  if (x =? "")%string then default else x.

Definition or_date (x : option date) (default : string) : pyval :=
  match x with
  | Some d => PDate d
  | None => PStr default
  end.

(** [Patient.objects.get(created_by=user)] *)
Definition Patient_objects_get (uid : nat) : M Patient :=
  fun st =>
    match filter (created_by_is uid) (patients st) with
    | [] => (Raise DoesNotExist, st)
    | [p] => (Ok p, st)
    | _ :: _ :: _ => (Raise MultipleObjectsReturned, st)
    end.

(** [Patient.objects.create]: build the instance from the keyword
    arguments, save it. *)
Definition Patient_objects_create (today : date) (kwargs : Patient)
  : M Patient :=
  Patient_save today kwargs.

(** [Patient.objects.get_or_create(created_by=user, defaults=...)] as
    [perform_create] calls it; the boolean is [created]. *)
Definition Patient_objects_get_or_create (today : date) (user : User)
  : M (Patient * bool) :=
  fun st =>
    match Patient_objects_get (u_pk user) st with
    | (Ok p, st') => (Ok (p, false), st')
    | (Raise DoesNotExist, st') =>
        (p <- Patient_objects_create today
                (mkPatient None
                   (or_str (u_last_name user) "User")
                   (or_str (u_first_name user) "Unknown")
                   (or_date (u_birth_date user) "2000-01-01")
                   (or_str (u_gender user) "O")
                   None None (u_pk user)) ;;
         ret (p, true)) st'
    | (Raise e, st') => (Raise e, st')
    end.

(** The [try: get / except DoesNotExist: create] of [create_analysis] and
    of [AnalysisForm.__init__]. *)
Definition get_or_provision (today : date) (user : User) : M Patient :=
  fun st =>
    match Patient_objects_get (u_pk user) st with
    | (Ok p, st') => (Ok p, st')
    | (Raise DoesNotExist, st') =>
        Patient_objects_create today
          (mkPatient None
             (or_str (u_last_name user) "User")
             (or_str (u_first_name user) "Unknown")
             (or_date (u_birth_date user) "2000-01-01")
             (or_str (u_gender user) "O")
             (u_phone user) (Some (u_email user)) (u_pk user)) st'
    | (Raise e, st') => (Raise e, st')
    end.

(** The instance [AnalysisForm] builds for a new analysis: the form has
    the fields patient, analysis type, collection date and notes, so the
    others keep the defaults of the model.  (The serializer of the view
    set lists every field and declares none read-only: the validated data
    of [AnalysisViewSet_perform_create] is any instance without a key.) *)
Definition new_analysis (patient type : nat) (notes : string) : Analysis :=
  mkAnalysis None patient type "registered" None "" notes None.

Definition with_patient (pk : nat) (a : Analysis) : Analysis :=
  mkAnalysis (a_pk a) pk (a_analysis_type a) (a_status a)
             (a_completion_date a) (a_result a) (a_notes a)
             (a_lab_technician a).

(** [AnalysisViewSet.perform_create]; [data] is the validated data of the
    serializer. *)
Definition AnalysisViewSet_perform_create (today : date) (now : Z)
  (user : User) (data : Analysis) : M Analysis :=
  if is_regular_user user then
    pc <- Patient_objects_get_or_create today user ;;
    Analysis_save now (with_patient (pk_of (p_pk (fst pc))) data)
  else Analysis_save now data.

Definition AnalysisViewSet_create (today : date) (now : Z) (r : RequestUser)
  (data : Analysis) : M (Response Analysis) :=
  match r with
  | AnonymousUser => ret HTTP_403_FORBIDDEN
  | Account user =>
      if AnalysisViewSet_get_permissions act_create r
      then a <- AnalysisViewSet_perform_create today now user data ;;
           ret (HTTP_201_CREATED a)
      else ret HTTP_403_FORBIDDEN
  end.

(** What an HTML view answers with. *)
Inductive Html : Type :=
| Redirect (target : string)
| Render (template : string)
| Http404.

(** [AnalysisForm.__init__]: the patients offered by the form; a regular
    user is provisioned here as well.  The query set is lazy: it is read
    when the form validates, after the provisioning. *)
Definition AnalysisForm_init (today : date) (user : User) : M (list Patient) :=
  fun st =>
    let choose (st' : Store) :=
      if is_administrator user || is_moderator user then patients st'
      else filter (created_by_is (u_pk user)) (patients st') in
    if is_regular_user user then
      match get_or_provision today user st with
      | (Ok _, st') => (Ok (choose st'), st')
      | (Raise e, st') => (Raise e, st')
      end
    else (Ok (choose st), st).

(** [create_analysis]; [post] is [None] for a GET request and the fields of
    the submitted form otherwise (patient, analysis type, notes). *)
Definition create_analysis (today : date) (now : Z) (r : RequestUser)
  (post : option (nat * nat * string)) : M Html :=
  match r with
  | AnonymousUser => ret (Redirect "users:login")
  | Account user =>
      if negb (is_moderator user || is_regular_user user)
      then ret (Redirect "medical_lab:analyses_list")
      else
        _ <- (if is_regular_user user
              then (_ <- get_or_provision today user ;; ret tt)
              else ret tt) ;;
        choices <- AnalysisForm_init today user ;;
        match post with
        | Some (patient, type, notes) =>
            if existsb (fun p => has_pk patient (p_pk p)) choices
            then _ <- Analysis_save now (new_analysis patient type notes) ;;
                 ret (Redirect "medical_lab:analyses_list")
            else ret (Render "medical_lab/create_analysis.html")
        | None => ret (Render "medical_lab/create_analysis.html")
        end
  end.

(** ** medical_lab/forms.py: [PatientForm] *)

(** The cleaned fields of a patient form. *)
Record PatientData : Type := mkPatientData {
  d_last_name : string;
  d_first_name : string;
  d_birth_date : date;
  d_gender : string;
  d_phone : option string;
  d_email : option string
}.

(** [PatientForm.clean_birth_date].  The test [days / 365.25 > 150] is
    written over the integers: [365.25 = 36525 / 100]. *)
Definition PatientForm_clean_birth_date (today : date)
  (birth_date : option date) : result (option date) :=
  match birth_date with
  | None => Ok None
  | Some b =>
      if date_gtb b today then Raise ValidationError
      else if 100 * days_between today b >? 150 * 36525
           then Raise ValidationError
           else Ok (Some b)
  end.

(** [PatientForm.is_valid]; the other fields are taken as cleaned. *)
Definition PatientForm_is_valid (today : date) (d : PatientData) : bool :=
  is_ok (PatientForm_clean_birth_date today (Some (d_birth_date d))).

(** The instance a model form builds from its cleaned fields. *)
Definition construct_instance (pk : option nat) (created_by : nat)
  (d : PatientData) : Patient :=
  mkPatient pk (d_last_name d) (d_first_name d) (PDate (d_birth_date d))
            (d_gender d) (d_phone d) (d_email d) created_by.

(** ** users/models.py and users/forms.py: accounts made by a moderator *)

Definition with_superuser (b : bool) (u : User) : User :=
  mkUser (u_pk u) (u_email u) (u_last_name u) (u_first_name u)
         (u_birth_date u) (u_gender u) (u_phone u) b (u_groups u).

Definition with_groups (gs : list string) (u : User) : User :=
  mkUser (u_pk u) (u_email u) (u_last_name u) (u_first_name u)
         (u_birth_date u) (u_gender u) (u_phone u) (u_is_superuser u) gs.

Definition with_user_pk (pk : nat) (u : User) : User :=
  mkUser pk (u_email u) (u_last_name u) (u_first_name u)
         (u_birth_date u) (u_gender u) (u_phone u) (u_is_superuser u)
         (u_groups u).

(** [User.save] of a new account: insert (the e-mail is unique), then take
    the superuser flag away from an account that is neither administrator
    nor moderator. *)
Definition User_save (self : User) : M User :=
  fun st =>
    if existsb (fun u => String.eqb (u_email u) (u_email self)) (users st)
    then (Raise IntegrityError, st)
    else
      let row := with_user_pk (next_pk (map u_pk (users st)))
                              (with_groups [] self) in
      let row' := if negb (is_administrator row || is_moderator row)
                  then with_superuser false row else row in
      (Ok row', set_users (users st ++ [row']) st).

(** Modelled from the spec: [CustomUserManager.create_user] lives in
    [users/managers.py], which is not among the sources.  Following the
    spec's Account ("identity (unique email), role-determining flags,
    profile fields") it builds an account from the e-mail and the profile
    fields, without the superuser flag and in no group, and saves it. *)
Definition User_objects_create_user (email last_name first_name : string)
  (birth_date : date) (gender : string) (phone : option string) : M User :=
  User_save (mkUser O email last_name first_name (Some birth_date) gender
                    phone false []).

(** [user.groups.add(users_group)] inside
    [try: Group.objects.get(name='users') / except Group.DoesNotExist] *)
Definition add_to_users_group (user : User) : M User :=
  fun st =>
    if existsb (String.eqb "users") (group_names st) then
      let user' := with_groups ("users" :: u_groups user) user in
      (Ok user',
       set_users (replace_row (fun u => Nat.eqb (u_pk u) (u_pk user)) user'
                              (users st)) st)
    else (Ok user, st).

Record PatientWithUserData : Type := mkPatientWithUserData {
  w_patient : PatientData;
  w_email : string;
  w_password1 : string;
  w_password2 : string
}.

Definition PatientWithUserForm_clean_password1 (password1 : string)
  : result string :=
  if negb (password1 =? "")%string && (String.length password1 <? 8)%nat
  then Raise ValidationError
  else Ok password1.

Definition PatientWithUserForm_clean (d : PatientWithUserData) (st : Store)
  : result unit :=
  if negb (w_password1 d =? "")%string && negb (w_password2 d =? "")%string
     && negb (w_password1 d =? w_password2 d)%string
  then Raise ValidationError
  else if negb (w_email d =? "")%string
          && existsb (fun u => String.eqb (u_email u) (w_email d)) (users st)
       then Raise ValidationError
       else Ok tt.

(** [PatientWithUserForm.is_valid]: the required fields are present and the
    form's own [clean_password1] and [clean] pass.  The form has no
    [clean_birth_date].  The validators of the framework's fields (the
    shape of an e-mail address, lengths, choices) are not modelled: every
    input the form accepts is accepted here, not conversely. *)
Definition PatientWithUserForm_is_valid (d : PatientWithUserData)
  (st : Store) : bool :=
  negb (w_email d =? "")%string
  && negb (w_password1 d =? "")%string
  && negb (w_password2 d =? "")%string
  && is_ok (PatientWithUserForm_clean_password1 (w_password1 d))
  && is_ok (PatientWithUserForm_clean d st).

(** [PatientWithUserForm.save(commit=True, created_by=...)] *)
Definition PatientWithUserForm_save (today : date)
  (d : PatientWithUserData) (created_by : option User) : M Patient :=
  user <- User_objects_create_user (w_email d)
            (d_last_name (w_patient d)) (d_first_name (w_patient d))
            (d_birth_date (w_patient d)) (d_gender (w_patient d))
            (d_phone (w_patient d)) ;;
  user <- add_to_users_group user ;;
  let owner := match created_by with Some c => c | None => user end in
  Patient_save today
    (mkPatient None (d_last_name (w_patient d)) (d_first_name (w_patient d))
               (PDate (d_birth_date (w_patient d))) (d_gender (w_patient d))
               (d_phone (w_patient d)) (Some (w_email d)) (u_pk owner)).

(** ** medical_lab/views.py: creating and editing patients *)

(** [create_patient]; [post] is [None] for a GET request. *)
Definition create_patient (today : date) (r : RequestUser)
  (post : option PatientWithUserData) : M Html :=
  match r with
  | AnonymousUser => ret (Redirect "users:login")
  | Account user =>
      if is_regular_user user then ret (Redirect "medical_lab:patients_list")
      else if negb (is_moderator user)
      then ret (Redirect "medical_lab:patients_list")
      else
        match post with
        | Some d =>
            if is_moderator user then
              fun st =>
                if PatientWithUserForm_is_valid d st
                then (_ <- PatientWithUserForm_save today d (Some user) ;;
                      ret (Redirect "medical_lab:patients_list")) st
                else (Ok (Render "medical_lab/create_patient.html"), st)
            else
              if PatientForm_is_valid today (w_patient d)
              then _ <- Patient_save today
                          (construct_instance None (u_pk user) (w_patient d)) ;;
                   ret (Redirect "medical_lab:patients_list")
              else ret (Render "medical_lab/create_patient.html")
        | None => ret (Render "medical_lab/create_patient.html")
        end
  end.

(** [edit_patient]; [post] is [None] for a GET request. *)
Definition edit_patient (today : date) (r : RequestUser) (patient_id : nat)
  (post : option PatientData) : M Html :=
  match r with
  | AnonymousUser => ret (Redirect "users:login")
  | Account user =>
      fun st =>
        match find_patient patient_id st with
        | None => (Ok Http404, st)
        | Some patient =>
            if negb (is_administrator user || is_moderator user
                     || (is_regular_user user
                         && created_by_is (u_pk user) patient))
            then (Ok (Redirect "medical_lab:patients_list"), st)
            else
              match post with
              | Some d =>
                  if PatientForm_is_valid today d
                  then (_ <- Patient_save today
                               (construct_instance (p_pk patient)
                                  (p_created_by patient) d) ;;
                        ret (Redirect "medical_lab:patient_detail")) st
                  else (Ok (Render "medical_lab/edit_patient.html"), st)
              | None => (Ok (Render "medical_lab/edit_patient.html"), st)
              end
        end
  end.

(** The [create] action of [PatientViewSet]: the serializer has no
    validator of its own; [perform_create] saves with
    [created_by=request.user]. *)
Definition PatientViewSet_create (today : date) (r : RequestUser)
  (d : PatientData) : M (Response Patient) :=
  match r with
  | AnonymousUser => ret HTTP_403_FORBIDDEN
  | Account user =>
      if PatientViewSet_get_permissions act_create r
      then p <- Patient_save today (construct_instance None (u_pk user) d) ;;
           ret (HTTP_201_CREATED p)
      else ret HTTP_403_FORBIDDEN
  end.

(** ** medical_lab/views.py: [add_analysis_result] *)

Definition with_result (res notes : string) (tech : option nat)
  (a : Analysis) : Analysis :=
  mkAnalysis (a_pk a) (a_patient a) (a_analysis_type a) (a_status a)
             (a_completion_date a) res notes tech.

(** [post] is [None] for a GET request or a form that does not validate,
    and the cleaned result and notes otherwise. *)
Definition add_analysis_result (now : Z) (r : RequestUser)
  (analysis_id : nat) (post : option (string * string)) : M Html :=
  match r with
  | AnonymousUser => ret (Redirect "users:login")
  | Account user =>
      if negb (is_moderator user)
      then ret (Redirect "medical_lab:analyses_list")
      else
        fun st =>
          match find_analysis analysis_id st with
          | None => (Ok Http404, st)
          | Some analysis =>
              match post with
              | Some (res, notes) =>
                  (_ <- Analysis_save now
                          (with_status "completed"
                             (with_result res notes (Some (u_pk user))
                                          analysis)) ;;
                   ret (Redirect "medical_lab:analysis_detail")) st
              | None =>
                  (Ok (Render "medical_lab/add_analysis_result.html"), st)
              end
          end
  end.

(** ** medical_lab/views.py: [edit_analysis] *)

Definition with_form_fields (patient type : nat) (notes : string)
  (a : Analysis) : Analysis :=
  mkAnalysis (a_pk a) patient type (a_status a) (a_completion_date a)
             (a_result a) notes (a_lab_technician a).

(** [post] is [None] for a GET request and the submitted fields (patient,
    analysis type, notes) otherwise. *)
Definition edit_analysis (today : date) (now : Z) (r : RequestUser)
  (analysis_id : nat) (post : option (nat * nat * string)) : M Html :=
  match r with
  | AnonymousUser => ret (Redirect "users:login")
  | Account user =>
      fun st =>
        match find_analysis analysis_id st with
        | None => (Ok Http404, st)
        | Some analysis =>
            if negb (is_administrator user || is_moderator user
                     || (is_regular_user user
                         && patient_created_by_is st (u_pk user) analysis))
            then (Ok (Redirect "medical_lab:analyses_list"), st)
            else
              (choices <- AnalysisForm_init today user ;;
               match post with
               | Some (patient, type, notes) =>
                   if existsb (fun p => has_pk patient (p_pk p)) choices
                   then _ <- Analysis_save now
                               (with_form_fields patient type notes analysis) ;;
                        ret (Redirect "medical_lab:analysis_detail")
                   else ret (Render "medical_lab/edit_analysis.html")
               | None => ret (Render "medical_lab/edit_analysis.html")
               end) st
        end
  end.

(** ** The lifecycle of one analysis *)

(** The requests of the three views written for the life cycle of a
    stored analysis: the [set_status] action, the result page and the edit
    page.  (The update actions of the view set save an analysis as well;
    they are [AnalysisViewSet_update] and the [call]s below.) *)
Inductive request : Type :=
| SetStatus (r : RequestUser) (new_status : option json)
| AddResult (r : RequestUser) (post : option (string * string))
| EditAnalysis (r : RequestUser) (post : option (nat * nat * string)).

(** A request arrives on a day and at an instant. *)
Record stamped : Type := mkStamped {
  s_today : date;
  s_now : Z;
  s_request : request
}.

(** The store after the request was served (also when it raised). *)
Definition serve (pk : nat) (q : stamped) (st : Store) : Store :=
  match s_request q with
  | SetStatus r s => snd (AnalysisViewSet_set_status (s_now q) r pk s st)
  | AddResult r post => snd (add_analysis_result (s_now q) r pk post st)
  | EditAnalysis r post =>
      snd (edit_analysis (s_today q) (s_now q) r pk post st)
  end.

Fixpoint serve_all (pk : nat) (qs : list stamped) (st : Store) : Store :=
  match qs with
  | [] => st
  | q :: rest => serve_all pk rest (serve pk q st)
  end.

Definition stored_status (pk : nat) (st : Store) : option string :=
  option_map a_status (find_analysis pk st).

Definition stored_completion_date (pk : nat) (st : Store) : option Z :=
  match find_analysis pk st with
  | Some a => a_completion_date a
  | None => None
  end.

(** Who sent a request *)
Definition request_user (q : request) : RequestUser :=
  match q with
  | SetStatus r _ | AddResult r _ | EditAnalysis r _ => r
  end.

(** ** Notions used in the statements *)

(** The date stamp of [Analysis.save]. *)
Definition stamp (now : Z) (self : Analysis) : Analysis :=
  if (a_status self =? "completed")%string && isNone (a_completion_date self)
  then with_completion_date (Some now) self
  else self.

(** The receiver's test: the stored status is not "completed", the new
    one is. *)
Definition enters_completed (old self : Analysis) : bool :=
  negb (a_status old =? "completed")%string
  && (a_status self =? "completed")%string.

Definition status_values : list string :=
  ["registered"; "in_progress"; "completed"; "cancelled"].

(** The patient that [perform_create] provisions for an account with a
    birth date. *)
Definition provisioned (pk : nat) (user : User) (b : date) : Patient :=
  mkPatient (Some pk)
            (or_str (u_last_name user) "User")
            (or_str (u_first_name user) "Unknown")
            (PDate b)
            (or_str (u_gender user) "O")
            None None (u_pk user).

(** The account and the patient that [PatientWithUserForm.save] stores. *)
Definition new_account (d : PatientWithUserData) (st : Store) : User :=
  mkUser (next_pk (map u_pk (users st))) (w_email d)
         (d_last_name (w_patient d)) (d_first_name (w_patient d))
         (Some (d_birth_date (w_patient d))) (d_gender (w_patient d))
         (d_phone (w_patient d)) false
         (if existsb (String.eqb "users") (group_names st)
          then ["users"] else []).

Definition new_patient (d : PatientWithUserData) (owner : nat) (st : Store)
  : Patient :=
  mkPatient (Some (next_pk (map (fun p => pk_of (p_pk p)) (patients st))))
            (d_last_name (w_patient d)) (d_first_name (w_patient d))
            (PDate (d_birth_date (w_patient d))) (d_gender (w_patient d))
            (d_phone (w_patient d)) (Some (w_email d)) owner.

(** ** Sample data *)

Definition demo_moderator : User :=
  mkUser 1 "moderator@test.ru" "Petrova" "Anna" None "F" None false
         ["moderators"].

Definition demo_root : User :=
  mkUser 2 "root@test.ru" "" "" None "O" None true [].

(** The head of the laboratory: administrator and moderator at once. *)
Definition demo_chief : User :=
  mkUser 4 "chief@test.ru" "Smirnov" "Oleg" None "M" None false
         ["administrators"; "moderators"].

(** A self-service account registered with an e-mail and a password only,
    as the tests create it. *)
Definition demo_user : User :=
  mkUser 3 "p@test.ru" "" "" None "O" None false [].

Definition demo_patient : Patient :=
  mkPatient (Some 1%nat) "Ivanov" "Petr" (PDate (mkdate 1990 1 1)) "M" None
            (Some "patient@test.ru") 1.

Definition demo_analysis : Analysis :=
  mkAnalysis (Some 1%nat) 1 1 "registered" None "" "" None.

Definition demo_store : Store :=
  mkStore [demo_moderator; demo_root; demo_user; demo_chief]
          ["administrators"; "moderators"; "users"]
          [demo_patient] [demo_analysis] [].

Definition demo_today : date := mkdate 2025 6 1.

(** completed, back to registered, completed again *)
Definition demo_reentry : list stamped :=
  [ mkStamped demo_today 100
      (SetStatus (Account demo_chief) (Some (JString "completed")));
    mkStamped demo_today 200
      (SetStatus (Account demo_chief) (Some (JString "registered")));
    mkStamped demo_today 300
      (SetStatus (Account demo_chief) (Some (JString "completed"))) ].

Definition born (b : date) : Patient :=
  mkPatient (Some 1%nat) "Ivanov" "Petr" (PDate b) "M" None None 1.

Definition demo_old : PatientWithUserData :=
  mkPatientWithUserData
    (mkPatientData "Sidorov" "Ivan" (mkdate 1800 1 1) "M" None
                   (Some "old@test.ru"))
    "old@test.ru" "testpass123" "testpass123".

Definition demo_unborn : PatientWithUserData :=
  mkPatientWithUserData
    (mkPatientData "Sidorov" "Ivan" (mkdate 2030 1 1) "M" None
                   (Some "new@test.ru"))
    "new@test.ru" "testpass123" "testpass123".

Definition demo_done : Analysis :=
  mkAnalysis (Some 1%nat) 1 1 "completed" (Some 100) "" "" None.

Definition demo_done_store : Store :=
  mkStore [demo_moderator; demo_root; demo_user; demo_chief]
          ["administrators"; "moderators"; "users"]
          [demo_patient] [demo_done] [].

Definition demo_own_patient : Patient :=
  mkPatient (Some 2%nat) "User" "Unknown" (PDate (mkdate 2000 1 1)) "O" None
            (Some "p@test.ru") 3.

Definition demo_own_analysis : Analysis :=
  mkAnalysis (Some 2%nat) 2 1 "registered" None "" "" None.

Definition demo_shared_store : Store :=
  mkStore [demo_moderator; demo_root; demo_user; demo_chief]
          ["administrators"; "moderators"; "users"]
          [demo_patient; demo_own_patient] [demo_analysis; demo_own_analysis]
          [].

Definition demo_form : PatientWithUserData :=
  mkPatientWithUserData
    (mkPatientData "Sidorov" "Ivan" (mkdate 1990 5 5) "M" None
                   (Some "new@test.ru"))
    "new@test.ru" "testpass123" "testpass123".

(** ** medical_lab/views.py: object permissions and the update action *)

(** [IsOwnerOrAdministratorOrModerator.has_object_permission] for a
    [Patient]: the object has no attribute [patient], it has [created_by].
    The anonymous user has no attribute [is_administrator]. *)
Definition has_object_permission_patient (r : RequestUser) (obj : Patient)
  : result bool :=
  match r with
  | AnonymousUser => Raise AttributeError
  | Account user =>
      if is_administrator user || is_moderator user then Ok true
      else Ok (created_by_is (u_pk user) obj)
  end.

(** The same for an [Analysis].  When the patient row is missing,
    [hasattr(obj, 'patient')] is false (the exception raised by the
    descriptor is an [AttributeError]), an analysis has no [created_by],
    and the answer is [False]. *)
Definition has_object_permission_analysis (st : Store) (r : RequestUser)
  (obj : Analysis) : result bool :=
  match r with
  | AnonymousUser => Raise AttributeError
  | Account user =>
      if is_administrator user || is_moderator user then Ok true
      else
        match find_patient (a_patient obj) st with
        | Some p => Ok (created_by_is (u_pk user) p)
        | None => Ok false
        end
  end.

Definition PatientViewSet_get_object (r : RequestUser) (pk : nat)
  (st : Store) : option Patient :=
  find (fun p => has_pk pk (p_pk p)) (PatientViewSet_get_queryset r st).

(** The [update] action (PUT) of [PatientViewSet]: request permissions,
    the object within the query set, object permissions, then the
    serializer writes its fields ([created_by] is read-only) and saves. *)
Definition PatientViewSet_update (today : date) (r : RequestUser) (pk : nat)
  (d : PatientData) : M (Response Patient) :=
  if negb (PatientViewSet_get_permissions act_update r)
  then ret HTTP_403_FORBIDDEN
  else
    fun st =>
      match PatientViewSet_get_object r pk st with
      | None => (Ok HTTP_404_NOT_FOUND, st)
      | Some patient =>
          match has_object_permission_patient r patient with
          | Raise e => (Raise e, st)
          | Ok false => (Ok HTTP_403_FORBIDDEN, st)
          | Ok true =>
              (p <- Patient_save today
                      (construct_instance (p_pk patient)
                         (p_created_by patient) d) ;;
               ret (HTTP_200_OK p)) st
          end
      end.

(** ** medical_lab/views.py and serializers.py: updating an analysis *)

(** The body of a PUT or PATCH request on an analysis, by field of
    [AnalysisSerializer] (those of the fields that [Analysis] has here):
    [None] where the body does not name the field.
    The serializer declares no field of the model read-only, so the status,
    the completion date, the result and the technician are written like
    the others.  A nullable field can be set to null. *)
Record AnalysisPayload : Type := mkAnalysisPayload {
  y_patient : option nat;
  y_analysis_type : option nat;
  y_status : option string;
  y_completion_date : option (option Z);
  y_result : option string;
  y_notes : option string;
  y_lab_technician : option (option nat)
}.

Definition isSome {A} (o : option A) : bool := negb (isNone o).

(** [setattr(instance, attr, value)] for the fields of the validated data *)
Definition or_field {A} (value : option A) (old : A) : A :=
  match value with Some v => v | None => old end.

(** [ModelSerializer.update] before its [instance.save()] *)
Definition apply_payload (y : AnalysisPayload) (a : Analysis) : Analysis :=
  mkAnalysis (a_pk a)
             (or_field (y_patient y) (a_patient a))
             (or_field (y_analysis_type y) (a_analysis_type a))
             (or_field (y_status y) (a_status a))
             (or_field (y_completion_date y) (a_completion_date a))
             (or_field (y_result y) (a_result a))
             (or_field (y_notes y) (a_notes a))
             (or_field (y_lab_technician y) (a_lab_technician a)).

(** [serializer.is_valid]: a PUT names the required fields (the patient
    and the analysis type), a related key names a stored row, the status
    is one of the choices.  Analysis types are not part of the store, so
    the key of a type is taken as valid. *)
Definition AnalysisSerializer_is_valid (partial : bool)
  (y : AnalysisPayload) (st : Store) : bool :=
  (partial || (isSome (y_patient y) && isSome (y_analysis_type y)))
  && match y_patient y with
     | Some k => isSome (find_patient k st)
     | None => true
     end
  && match y_status y with
     | Some s => existsb (fun kv => String.eqb s (fst kv)) STATUS_CHOICES
     | None => true
     end
  && match y_lab_technician y with
     | Some (Some k) => existsb (fun u => Nat.eqb (u_pk u) k) (users st)
     | _ => true
     end.

(** The [update] (PUT) and [partial_update] (PATCH) actions of
    [AnalysisViewSet], inherited from [ModelViewSet]: request permissions,
    the object within the query set, object permissions, validation, then
    the serializer writes the fields and saves. *)
Definition AnalysisViewSet_update (now : Z) (r : RequestUser) (pk : nat)
  (partial : bool) (y : AnalysisPayload) : M (Response Analysis) :=
  if negb (AnalysisViewSet_get_permissions
             (if partial then act_partial_update else act_update) r)
  then ret HTTP_403_FORBIDDEN
  else
    fun st =>
      match AnalysisViewSet_get_object r pk st with
      | None => (Ok HTTP_404_NOT_FOUND, st)
      | Some analysis =>
          match has_object_permission_analysis st r analysis with
          | Raise e => (Raise e, st)
          | Ok false => (Ok HTTP_403_FORBIDDEN, st)
          | Ok true =>
              if negb (AnalysisSerializer_is_valid partial y st)
              then (Ok HTTP_400_BAD_REQUEST, st)
              else
                (saved <- Analysis_save now (apply_payload y analysis) ;;
                 ret (HTTP_200_OK saved)) st
          end
      end.

(** Every request that saves a stored analysis: those of the three views
    above and the update actions. *)
Inductive call : Type :=
| View (q : request)
| ApiUpdate (r : RequestUser) (partial : bool) (payload : AnalysisPayload).

Record timed : Type := mkTimed {
  c_today : date;
  c_now : Z;
  c_call : call
}.

Definition serve_call (pk : nat) (c : timed) (st : Store) : Store :=
  match c_call c with
  | View q => serve pk (mkStamped (c_today c) (c_now c) q) st
  | ApiUpdate r partial y =>
      snd (AnalysisViewSet_update (c_now c) r pk partial y st)
  end.

Fixpoint serve_calls (pk : nat) (cs : list timed) (st : Store) : Store :=
  match cs with
  | [] => st
  | c :: rest => serve_calls pk rest (serve_call pk c st)
  end.

Definition call_user (c : call) : RequestUser :=
  match c with
  | View q => request_user q
  | ApiUpdate r _ _ => r
  end.

(** The call sends a value for the completion date. *)
Definition writes_completion_date (c : call) : bool :=
  match c with
  | View _ => false
  | ApiUpdate _ _ y => isSome (y_completion_date y)
  end.

(** [{"completion_date": ...}] with the instant 500 *)
Definition demo_dating : AnalysisPayload :=
  mkAnalysisPayload None None None (Some (Some 500)) None None None.


(** [{"status": "in_progress", "notes": "checked"}] *)
Definition demo_progress : AnalysisPayload :=
  mkAnalysisPayload None None (Some "in_progress") None None (Some "checked")
                    None.

(** Back to registered, a partial update of status and notes, a result. *)
Definition demo_calls : list timed :=
  [ mkTimed demo_today 200
      (View (SetStatus (Account demo_chief) (Some (JString "registered"))));
    mkTimed demo_today 300
      (ApiUpdate (Account demo_moderator) true demo_progress);
    mkTimed demo_today 400
      (View (AddResult (Account demo_moderator) (Some ("Hb 140", "")))) ].

(** ** medical_lab/views.py: the detail views *)

Definition patient_detail (r : RequestUser) (patient_id : nat) (st : Store)
  : Html :=
  match r with
  | AnonymousUser => Redirect "users:login"
  | Account user =>
      match find_patient patient_id st with
      | None => Http404
      | Some patient =>
          if is_regular_user user && negb (created_by_is (u_pk user) patient)
          then Redirect "medical_lab:patients_list"
          else Render "medical_lab/patient_detail.html"
      end
  end.

(** [analysis.patient.created_by != request.user] follows the foreign key;
    the key of a stored analysis always has its row. *)
Definition analysis_detail (r : RequestUser) (analysis_id : nat) (st : Store)
  : Html :=
  match r with
  | AnonymousUser => Redirect "users:login"
  | Account user =>
      match find_analysis analysis_id st with
      | None => Http404
      | Some analysis =>
          if is_regular_user user
             && negb (patient_created_by_is st (u_pk user) analysis)
          then Redirect "medical_lab:analyses_list"
          else Render "medical_lab/analysis_detail.html"
      end
  end.

(** ** medical_lab/forms.py and users/forms.py: [clean_phone] *)

(** [c.isdigit() or c == '+'] on a character of the phone number.  Text is
    a string of bytes; a byte counts as a digit when it is one of "0" to
    "9", the digits of ASCII.  ([str.isdigit] also accepts the digits of
    other scripts; phone numbers written with them are outside the
    model.) *)
Definition digit_or_plus (c : Ascii.ascii) : bool :=
  let n := Ascii.nat_of_ascii c in
  ((48 <=? n)%nat && (n <=? 57)%nat) || Nat.eqb n 43.

Fixpoint cleaned_phone (phone : string) : string :=
  match phone with
  | EmptyString => EmptyString
  | String c rest =>
      if digit_or_plus c then String c (cleaned_phone rest)
      else cleaned_phone rest
  end.

(** [PatientForm.clean_phone], the same code as
    [PatientRegistrationForm.clean_phone]. *)
Definition PatientForm_clean_phone (phone : option string)
  : result (option string) :=
  match phone with
  | None => Ok None
  | Some p =>
      if negb (p =? "")%string
         && (String.length (cleaned_phone p) <? 10)%nat
      then Raise ValidationError
      else Ok (Some p)
  end.

(** ** users/forms.py: [PatientRegistrationForm] *)

(** The cleaned fields of the registration form (the passwords go to
    [set_password] and are not kept here). *)
Record RegistrationData : Type := mkRegistrationData {
  g_last_name : string;
  g_first_name : string;
  g_birth_date : date;
  g_gender : string;
  g_phone : string;
  g_email : string
}.

(** [PatientRegistrationForm.clean_birth_date] *)
Definition PatientRegistrationForm_clean_birth_date (today : date)
  (birth_date : option date) : result (option date) :=
  match birth_date with
  | None => Ok None
  | Some b =>
      if date_gtb b today then Raise ValidationError
      else if 100 * days_between today b >? 150 * 36525
           then Raise ValidationError
           else Ok (Some b)
  end.

(** [PatientRegistrationForm.save(commit=True)]: the account is built
    from the cleaned fields, the superuser flag is cleared, the account is
    saved and put into the group "users" when that group exists. *)
Definition PatientRegistrationForm_save (d : RegistrationData) : M User :=
  user <- User_save
            (with_superuser false
               (mkUser O (g_email d) (g_last_name d) (g_first_name d)
                       (Some (g_birth_date d)) (g_gender d)
                       (Some (g_phone d)) false [])) ;;
  add_to_users_group user.

(** ** Notions and sample data of the further properties *)

(** The ways in which a request leaves the row of the analysis. *)
Inductive row_after (pk : nat) (q : stamped) (a : Analysis) (st' : Store)
  : Analysis -> Prop :=
| row_untouched : row_after pk q a st' a
| row_status (r : RequestUser) (s : string) :
    s_request q = SetStatus r (Some (JString s)) ->
    IsAdministrator r = true ->
    In s status_values ->
    enters_completed a (with_status s a) = false ->
    row_after pk q a st' (stamp (s_now q) (with_status s a))
| row_result (u : User) (res notes : string) :
    s_request q = AddResult (Account u) (Some (res, notes)) ->
    is_moderator u = true ->
    a_status a = "completed" ->
    row_after pk q a st'
      (stamp (s_now q)
         (with_status "completed" (with_result res notes (Some (u_pk u)) a)))
| row_edited (u : User) (patient type : nat) (notes : string) (p : Patient) :
    s_request q = EditAnalysis (Account u) (Some (patient, type, notes)) ->
    In p (patients st') ->
    p_pk p = Some patient ->
    (is_regular_user u = true -> p_created_by p = u_pk u) ->
    row_after pk q a st'
      (stamp (s_now q) (with_form_fields patient type notes a)).

Definition demo_second_patient : Patient :=
  mkPatient (Some 3%nat) "User" "Second" (PDate (mkdate 1999 9 9)) "F" None
            None 3.

Definition demo_crowded_store : Store :=
  mkStore [demo_moderator; demo_root; demo_user; demo_chief]
          ["administrators"; "moderators"; "users"]
          [demo_patient; demo_own_patient; demo_second_patient]
          [demo_analysis; demo_own_analysis] [].

Definition demo_registration : RegistrationData :=
  mkRegistrationData "Orlova" "Vera" (mkdate 1985 3 7) "F" "" "vera@test.ru".

Fixpoint all_chars (f : Ascii.ascii -> bool) (s : string) : bool :=
  match s with
  | EmptyString => true
  | String c rest => f c && all_chars f rest
  end.

(** An account that has a birth date and no names. *)
Definition demo_dated_user : User :=
  mkUser 5 "dated@test.ru" "" "" (Some (mkdate 1985 3 7)) "F" None false [].

(** * Properties *)

(** ** Rows and keys *)

Lemma find_replace_row_hit {A} (hit : A -> bool) (new : A) (rows : list A) :
  hit new = true ->
  (exists old, find hit rows = Some old) ->
  find hit (replace_row hit new rows) = Some new.
Proof.
  intros Hnew [old Hold].
  induction rows as [|r rest IH]; simpl in *; [discriminate|].
  destruct (hit r) eqn:Hr; simpl.
  - now rewrite Hnew.
  - rewrite Hr. now apply IH.
Qed.

Lemma find_analysis_has_pk pk st a :
  find_analysis pk st = Some a -> a_pk a = Some pk.
Proof.
  unfold find_analysis. intros H. apply find_some in H as [_ H].
  destruct (a_pk a) as [n|]; simpl in H; [|discriminate].
  apply Nat.eqb_eq in H. now subst.
Qed.

Lemma find_patient_has_pk pk st p :
  find_patient pk st = Some p -> p_pk p = Some pk.
Proof.
  unfold find_patient. intros H. apply find_some in H as [_ H].
  destruct (p_pk p) as [n|]; simpl in H; [|discriminate].
  apply Nat.eqb_eq in H. now subst.
Qed.

Lemma has_pk_refl pk : has_pk pk (Some pk) = true.
Proof. simpl. apply Nat.eqb_refl. Qed.

Lemma map_replace_row {A B} (f : A -> B) (hit : A -> bool) (new old : A)
  (rows : list A) :
  find hit rows = Some old ->
  f new = f old ->
  map f (replace_row hit new rows) = map f rows.
Proof.
  intros Hfind Hf. induction rows as [|r rest IH]; simpl in *; [discriminate|].
  destruct (hit r).
  - injection Hfind as ->. simpl. now rewrite Hf.
  - simpl. f_equal. now apply IH.
Qed.

Lemma find_filter_some {A} (hit keep : A -> bool) (rows : list A) (x : A) :
  find hit (filter keep rows) = Some x ->
  In x rows /\ hit x = true /\ keep x = true.
Proof.
  intros H. apply find_some in H as [Hin Hhit].
  apply filter_In in Hin as [Hin Hkeep]. auto.
Qed.

Lemma NoDup_map_eq {A B} (f : A -> B) (l : list A) x y :
  NoDup (map f l) -> In x l -> In y l -> f x = f y -> x = y.
Proof.
  induction l as [|a rest IH]; simpl; [tauto|].
  intros Hnd Hx Hy E. inversion Hnd as [|? ? Hnot Hrest]; subst.
  destruct Hx as [->|Hx], Hy as [->|Hy]; auto.
  - exfalso. apply Hnot. rewrite E. now apply in_map.
  - exfalso. apply Hnot. rewrite <- E. now apply in_map.
Qed.

(** ** What [Analysis.save] does to an existing row *)

Lemma stamp_pk now self : a_pk (stamp now self) = a_pk self.
Proof. unfold stamp. now destruct (_ && _). Qed.

Lemma stamp_status now self : a_status (stamp now self) = a_status self.
Proof. unfold stamp. now destruct (_ && _). Qed.

Lemma stamp_patient now self : a_patient (stamp now self) = a_patient self.
Proof. unfold stamp. now destruct (_ && _). Qed.

Lemma Analysis_save_existing now self pk old st :
  a_pk self = Some pk ->
  find_analysis pk st = Some old ->
  Analysis_save now self st =
    if enters_completed old self then (Raise AttributeError, st)
    else (Ok (stamp now self),
          set_analyses
            (replace_row (fun a => has_pk pk (a_pk a)) (stamp now self)
                         (analyses st)) st).
Proof.
  intros Hpk Hold.
  unfold Analysis_save. fold (stamp now self).
  unfold Model_save_analysis, handle_analysis_status_change, bind, ret,
    send_completion_email, raise.
  rewrite stamp_pk, Hpk, Hold, stamp_status.
  fold (enters_completed old self).
  destruct (enters_completed old self) eqn:He.
  - reflexivity.
  - rewrite stamp_pk, Hpk, Hold. reflexivity.
Qed.


Lemma find_analysis_written pk new st st0 :
  a_pk new = Some pk ->
  analyses st0 = analyses st ->
  (exists old, find_analysis pk st = Some old) ->
  find_analysis pk
    (set_analyses
       (replace_row (fun a => has_pk pk (a_pk a)) new (analyses st)) st0)
  = Some new.
Proof.
  intros Hpk _ Hold. unfold find_analysis at 1. simpl.
  apply find_replace_row_hit; [rewrite Hpk; apply has_pk_refl|exact Hold].
Qed.

(** ** Frame: what saving a patient leaves alone *)

Lemma Patient_save_frame today self st :
  analyses (snd (Patient_save today self st)) = analyses st
  /\ outbox (snd (Patient_save today self st)) = outbox st
  /\ users (snd (Patient_save today self st)) = users st.
Proof.
  unfold Patient_save, Model_save_patient, raise.
  destruct (truthy (p_birth_date self));
    [destruct (pyval_gt_date (p_birth_date self) today) as [[|]|]|];
    try (simpl; tauto);
    destruct (p_birth_date self); try (simpl; tauto);
    destruct (p_pk self); try (simpl; tauto);
    destruct (find_patient _ st); simpl; tauto.
Qed.

Lemma get_or_provision_frame today user st :
  analyses (snd (get_or_provision today user st)) = analyses st
  /\ outbox (snd (get_or_provision today user st)) = outbox st
  /\ users (snd (get_or_provision today user st)) = users st.
Proof.
  unfold get_or_provision, Patient_objects_get, Patient_objects_create.
  destruct (filter _ (patients st)) as [|p [|p' rest]]; try (simpl; tauto).
  apply Patient_save_frame.
Qed.

Lemma AnalysisForm_init_frame today user st :
  analyses (snd (AnalysisForm_init today user st)) = analyses st
  /\ outbox (snd (AnalysisForm_init today user st)) = outbox st.
Proof.
  unfold AnalysisForm_init.
  destruct (is_regular_user user); [|simpl; tauto].
  pose proof (get_or_provision_frame today user st) as (Ha & Ho & _).
  destruct (get_or_provision today user st) as [[p|e] st']; simpl in *; tauto.
Qed.

(** ** One save of a stored row *)

Lemma Analysis_save_row now self pk old st :
  a_pk self = Some pk ->
  find_analysis pk st = Some old ->
  (enters_completed old self = true
   /\ Analysis_save now self st = (Raise AttributeError, st))
  \/ (enters_completed old self = false
      /\ fst (Analysis_save now self st) = Ok (stamp now self)
      /\ find_analysis pk (snd (Analysis_save now self st))
         = Some (stamp now self)
      /\ patients (snd (Analysis_save now self st)) = patients st
      /\ outbox (snd (Analysis_save now self st)) = outbox st
      /\ map a_pk (analyses (snd (Analysis_save now self st)))
         = map a_pk (analyses st)).
Proof.
  intros Hpk Hold.
  rewrite (Analysis_save_existing now self pk old st Hpk Hold).
  assert (Hst : a_pk (stamp now self) = Some pk) by now rewrite stamp_pk.
  destruct (enters_completed old self); [left; now split|right].
  cbn [fst snd]. split; [reflexivity|]. split; [reflexivity|].
  split; [apply find_analysis_written; eauto|].
  split; [reflexivity|]. split; [reflexivity|].
  cbn [analyses set_analyses].
  apply (map_replace_row a_pk _ _ old); [exact Hold|].
  rewrite Hst. symmetry. exact (find_analysis_has_pk pk st old Hold).
Qed.

Lemma AnalysisForm_init_choices today user st choices st1 :
  AnalysisForm_init today user st = (Ok choices, st1) ->
  analyses st1 = analyses st
  /\ choices = if is_administrator user || is_moderator user
               then patients st1
               else filter (created_by_is (u_pk user)) (patients st1).
Proof.
  intros H.
  pose proof (AnalysisForm_init_frame today user st) as [Han _].
  rewrite H in Han. simpl in Han. split; [exact Han|].
  unfold AnalysisForm_init in H.
  destruct (is_regular_user user).
  - destruct (get_or_provision today user st) as [[p|e] st'];
      [|discriminate]. now injection H as <- <-.
  - now injection H as <- <-.
Qed.

Lemma get_object_administrator u pk st :
  is_administrator u = true ->
  AnalysisViewSet_get_object (Account u) pk st = find_analysis pk st.
Proof.
  intros Hadm. unfold AnalysisViewSet_get_object, AnalysisViewSet_get_queryset.
  now rewrite Hadm.
Qed.

Lemma in_STATUS_CHOICES_iff s :
  in_STATUS_CHOICES (Some (JString s)) = Ok true <-> In s status_values.
Proof.
  unfold in_STATUS_CHOICES, STATUS_CHOICES, status_values. simpl.
  split.
  - intros H. injection H as H.
    rewrite !orb_true_iff, !String.eqb_eq in H. intuition congruence.
  - intros H. f_equal.
    rewrite !orb_true_iff, !String.eqb_eq. intuition congruence.
Qed.

(** ** One served request, seen from the row of the analysis *)

Lemma serve_row pk q st a :
  find_analysis pk st = Some a ->
  exists a',
    find_analysis pk (serve pk q st) = Some a'
    /\ row_after pk q a (serve pk q st) a'
    /\ map a_pk (analyses (serve pk q st)) = map a_pk (analyses st)
    /\ outbox (serve pk q st) = outbox st.
Proof.
  intros Hfind.
  assert (Hpk : a_pk a = Some pk) by exact (find_analysis_has_pk pk st a Hfind).
  assert (Hsame : forall st',
            analyses st' = analyses st -> outbox st' = outbox st ->
            exists a', find_analysis pk st' = Some a'
                       /\ row_after pk q a st' a'
                       /\ map a_pk (analyses st') = map a_pk (analyses st)
                       /\ outbox st' = outbox st).
  { intros st' Han Hout. exists a. unfold find_analysis in *. rewrite Han.
    split; [exact Hfind|]. split; [constructor|]. now split. }
  unfold serve.
  destruct q as [today now [r s | r post | r post]]; cbn [s_request s_now s_today].
  - unfold AnalysisViewSet_set_status, set_status_permission, ret.
    destruct r as [|u]; simpl; [now apply Hsame|].
    destruct (is_administrator u) eqn:Hadm; simpl; [|now apply Hsame].
    rewrite (get_object_administrator u pk st Hadm), Hfind.
    destruct (in_STATUS_CHOICES s) as [[|]|e] eqn:Hs;
      [|now apply Hsame|now apply Hsame].
    destruct s as [[| b | n | s | xs | kvs]|]; try (now apply Hsame).
    unfold bind.
    destruct (Analysis_save_row now (with_status s a) pk a st Hpk Hfind)
      as [[He E] | (He & E1 & E2 & _ & E4 & E5)].
    + rewrite E. now apply Hsame.
    + destruct (Analysis_save now (with_status s a) st) as [[x|e] st'];
        simpl in *; [|discriminate].
      eexists. split; [exact E2|]. split; [|now split].
      eapply row_status; [reflexivity|exact Hadm| |exact He].
      now apply in_STATUS_CHOICES_iff.
  - unfold add_analysis_result, ret.
    destruct r as [|u]; simpl; [now apply Hsame|].
    destruct (is_moderator u) eqn:Hm; simpl; [|now apply Hsame].
    rewrite Hfind.
    destruct post as [[res notes]|]; [|now apply Hsame].
    unfold bind.
    destruct (Analysis_save_row now
                (with_status "completed"
                   (with_result res notes (Some (u_pk u)) a)) pk a st Hpk Hfind)
      as [[He E] | (He & E1 & E2 & _ & E4 & E5)].
    + rewrite E. now apply Hsame.
    + destruct (Analysis_save now _ st) as [[x|e] st'];
        simpl in *; [|discriminate].
      eexists. split; [exact E2|]. split; [|now split].
      eapply row_result; [reflexivity|exact Hm|].
      unfold enters_completed in He. simpl in He.
      rewrite andb_true_r in He. apply negb_false_iff in He.
      now apply String.eqb_eq in He.
  - unfold edit_analysis, ret.
    destruct r as [|u]; simpl; [now apply Hsame|].
    rewrite Hfind.
    destruct (negb _); [now apply Hsame|].
    unfold bind.
    pose proof (AnalysisForm_init_frame today u st) as [Han0 Hout0].
    destruct (AnalysisForm_init today u st) as [[choices|e] st1] eqn:Hinit;
      cbn [snd] in Han0, Hout0; [|now apply Hsame].
    destruct (AnalysisForm_init_choices today u st choices st1 Hinit)
      as [Han Hch].
    assert (Hfind1 : find_analysis pk st1 = Some a)
      by (unfold find_analysis in *; now rewrite Han).
    destruct post as [[[patient type] notes]|]; [|now apply Hsame].
    destruct (existsb _ choices) eqn:Hex; [|now apply Hsame].
    apply existsb_exists in Hex as (p & Hin & Hp).
    assert (Hppk : p_pk p = Some patient).
    { destruct (p_pk p) as [k|]; simpl in Hp; [|discriminate].
      apply Nat.eqb_eq in Hp. now subst. }
    destruct (Analysis_save_row now (with_form_fields patient type notes a)
                pk a st1 Hpk Hfind1)
      as [[He E] | (He & E1 & E2 & E3 & E4 & E5)].
    + rewrite E. now apply Hsame.
    + destruct (Analysis_save now _ st1) as [[x|e] st'];
        simpl in *; [|discriminate].
      eexists. split; [exact E2|].
      split; [|split; [now rewrite E5, Han|now rewrite E4]].
      eapply row_edited with (p := p); [reflexivity| |exact Hppk|].
      * rewrite E3. subst choices.
        destruct (is_administrator u || is_moderator u); [exact Hin|].
        now apply filter_In in Hin as [Hin _].
      * intros Hreg. subst choices. unfold is_regular_user in Hreg.
        apply negb_true_iff in Hreg. rewrite Hreg in Hin.
        apply filter_In in Hin as [_ Hin]. now apply Nat.eqb_eq in Hin.
Qed.

Lemma row_after_self pk q a st' a' :
  row_after pk q a st' a' ->
  a' = a
  \/ exists self,
       a' = stamp (s_now q) self
       /\ enters_completed a self = false
       /\ a_completion_date self = a_completion_date a
       /\ (a_status self = a_status a \/ In (a_status self) status_values).
Proof.
  intros [ | r s Hq Hadm Hs He | u res notes Hq Hm Hc
           | u patient type notes p Hq _ _ _].
  - now left.
  - right. eexists. split; [reflexivity|]. split; [exact He|].
    split; [reflexivity|]. now right.
  - right. eexists. split; [reflexivity|].
    split; [unfold enters_completed; now rewrite Hc|].
    split; [reflexivity|]. left. now rewrite Hc.
  - right. eexists. split; [reflexivity|].
    split; [unfold enters_completed; simpl;
            now destruct (a_status a =? "completed")%string|].
    split; [reflexivity|]. now left.
Qed.

(** ** The update actions *)

Lemma get_object_is_row r pk st a x :
  find_analysis pk st = Some a ->
  NoDup (map a_pk (analyses st)) ->
  AnalysisViewSet_get_object r pk st = Some x ->
  x = a /\ In a (AnalysisViewSet_get_queryset r st).
Proof.
  intros Hfind Hnd Hx. unfold AnalysisViewSet_get_object in Hx.
  apply find_some in Hx as [Hin Hhit].
  assert (Hrow : In x (analyses st)).
  { unfold AnalysisViewSet_get_queryset in Hin.
    destruct r as [|u]; [contradiction|].
    destruct (is_administrator u); [exact Hin|].
    destruct (is_moderator u); [exact Hin|].
    destruct (is_regular_user u); [|contradiction].
    now apply filter_In in Hin. }
  assert (E : x = a).
  { apply (NoDup_map_eq a_pk (analyses st)); auto.
    - unfold find_analysis in Hfind. now apply find_some in Hfind.
    - rewrite (find_analysis_has_pk pk st a Hfind).
      destruct (a_pk x); simpl in Hhit; [|discriminate].
      apply Nat.eqb_eq in Hhit. now subst. }
  subst x. auto.
Qed.

Lemma update_row now r pk partial y st a :
  find_analysis pk st = Some a ->
  NoDup (map a_pk (analyses st)) ->
  exists a',
    find_analysis pk (snd (AnalysisViewSet_update now r pk partial y st))
    = Some a'
    /\ map a_pk (analyses (snd (AnalysisViewSet_update now r pk partial y st)))
       = map a_pk (analyses st)
    /\ outbox (snd (AnalysisViewSet_update now r pk partial y st)) = outbox st
    /\ patients (snd (AnalysisViewSet_update now r pk partial y st))
       = patients st
    /\ (a' = a
        \/ (a' = stamp now (apply_payload y a)
            /\ enters_completed a (apply_payload y a) = false
            /\ In a (AnalysisViewSet_get_queryset r st)
            /\ AnalysisSerializer_is_valid partial y st = true)).
Proof.
  intros Hfind Hnd.
  assert (Hpk : a_pk (apply_payload y a) = Some pk)
    by exact (find_analysis_has_pk pk st a Hfind).
  assert (Hsame : exists a',
            find_analysis pk st = Some a'
            /\ map a_pk (analyses st) = map a_pk (analyses st)
            /\ outbox st = outbox st
            /\ patients st = patients st
            /\ (a' = a
                \/ (a' = stamp now (apply_payload y a)
                    /\ enters_completed a (apply_payload y a) = false
                    /\ In a (AnalysisViewSet_get_queryset r st)
                    /\ AnalysisSerializer_is_valid partial y st = true))).
  { exists a. repeat split; auto. }
  unfold AnalysisViewSet_update.
  replace (AnalysisViewSet_get_permissions
             (if partial then act_partial_update else act_update) r)
    with true by now destruct partial.
  change (negb true) with false. cbv beta iota.
  destruct (AnalysisViewSet_get_object r pk st) as [x|] eqn:Hx;
    [|exact Hsame].
  destruct (get_object_is_row r pk st a x Hfind Hnd Hx) as [-> Hq].
  destruct (has_object_permission_analysis st r a) as [[|]|e];
    [|exact Hsame|exact Hsame].
  destruct (AnalysisSerializer_is_valid partial y st) eqn:Hv;
    [|exact Hsame].
  change (negb true) with false. cbv beta iota. unfold bind, ret.
  destruct (Analysis_save_row now (apply_payload y a) pk a st Hpk Hfind)
    as [[He E] | (He & E1 & E2 & E3 & E4 & E5)].
  - rewrite E. exact Hsame.
  - destruct (Analysis_save now (apply_payload y a) st) as [[x|e] st'];
      cbn [fst snd] in *; [|discriminate].
    eexists. split; [exact E2|]. split; [exact E5|]. split; [exact E4|].
    split; [exact E3|]. right. auto.
Qed.

Lemma is_valid_status partial y st s :
  AnalysisSerializer_is_valid partial y st = true ->
  y_status y = Some s ->
  In s status_values.
Proof.
  unfold AnalysisSerializer_is_valid. intros H Hs. rewrite Hs in H.
  apply andb_prop in H as [H _]. apply andb_prop in H as [_ H].
  apply in_STATUS_CHOICES_iff. unfold in_STATUS_CHOICES. now rewrite H.
Qed.

(** ** Every call, seen from the row of the analysis *)

Lemma serve_call_row pk c st a :
  find_analysis pk st = Some a ->
  NoDup (map a_pk (analyses st)) ->
  exists a',
    find_analysis pk (serve_call pk c st) = Some a'
    /\ NoDup (map a_pk (analyses (serve_call pk c st)))
    /\ outbox (serve_call pk c st) = outbox st
    /\ (a' = a
        \/ exists self,
             a' = stamp (c_now c) self
             /\ enters_completed a self = false
             /\ (writes_completion_date (c_call c) = false ->
                 a_completion_date self = a_completion_date a)
             /\ (a_status self = a_status a
                 \/ In (a_status self) status_values)).
Proof.
  intros Hfind Hnd. unfold serve_call.
  destruct c as [today now [q | r partial y]]; cbn [c_call c_now c_today].
  - destruct (serve_row pk (mkStamped today now q) st a Hfind)
      as (a' & Hfind' & Hrow & Hkeys & Hout).
    exists a'. split; [exact Hfind'|]. split; [now rewrite Hkeys|].
    split; [exact Hout|].
    destruct (row_after_self _ _ _ _ _ Hrow)
      as [E | (self & E & He & Hd & Hs)]; [now left|right].
    exists self. auto.
  - destruct (update_row now r pk partial y st a Hfind Hnd)
      as (a' & Hfind' & Hkeys & Hout & _ & Hrow).
    exists a'. split; [exact Hfind'|]. split; [now rewrite Hkeys|].
    split; [exact Hout|].
    destruct Hrow as [E | (E & He & _ & Hv)]; [now left|right].
    exists (apply_payload y a). split; [exact E|]. split; [exact He|].
    split.
    + simpl. unfold isSome. intros Hw.
      destruct (y_completion_date y); [discriminate|reflexivity].
    + simpl. destruct (y_status y) as [s|] eqn:Hs; [right|now left].
      exact (is_valid_status partial y st s Hv Hs).
Qed.


(** ** The completion date *)



(** ** The notification *)

(** C2.  Whenever a stored analysis in another status is saved as
    "completed", the receiver calls a method that [Analysis] does not
    have: the save raises [AttributeError] out of the view, nothing is
    stored and no message is sent.  This is so for [Analysis.save] itself
    and hence for set_status to "completed" by an administrator and for
    attaching a result by a moderator. *)
Theorem completion_notification_raises now pk st a :
  find_analysis pk st = Some a ->
  a_status a <> "completed" ->
  (forall self,
      a_pk self = Some pk ->
      a_status self = "completed" ->
      Analysis_save now self st = (Raise AttributeError, st))
  /\ (forall u,
        is_administrator u = true ->
        AnalysisViewSet_set_status now (Account u) pk
          (Some (JString "completed")) st
        = (Raise AttributeError, st))
  /\ (forall u res notes,
        is_moderator u = true ->
        add_analysis_result now (Account u) pk (Some (res, notes)) st
        = (Raise AttributeError, st)).
Proof.
  intros Hfind Hs.
  assert (Hsave : forall self,
             a_pk self = Some pk ->
             a_status self = "completed" ->
             Analysis_save now self st = (Raise AttributeError, st)).
  { intros self Hpk Hc.
    rewrite (Analysis_save_existing now self pk a st Hpk Hfind).
    unfold enters_completed. rewrite Hc.
    apply String.eqb_neq in Hs. now rewrite Hs. }
  assert (Hpk : a_pk a = Some pk) by exact (find_analysis_has_pk pk st a Hfind).
  split; [exact Hsave|]. split.
  - intros u Hadm.
    unfold AnalysisViewSet_set_status, set_status_permission,
      AnalysisViewSet_get_permissions, IsAdministrator.
    rewrite Hadm. change (negb true) with false. cbv beta iota.
    rewrite (get_object_administrator u pk st Hadm), Hfind.
    cbn [in_STATUS_CHOICES STATUS_CHOICES existsb fst String.eqb Ascii.eqb
         Bool.eqb orb]. 
    unfold bind. now rewrite (Hsave (with_status "completed" a) Hpk eq_refl).
  - intros u res notes Hm.
    unfold add_analysis_result. rewrite Hm. change (negb true) with false.
    cbv beta iota. rewrite Hfind. unfold bind.
    now rewrite (Hsave (with_status "completed"
                          (with_result res notes (Some (u_pk u)) a))
                   Hpk eq_refl).
Qed.

(** ** Status values *)

Lemma set_status_administrator now u pk s a st :
  is_administrator u = true ->
  find_analysis pk st = Some a ->
  In s status_values ->
  AnalysisViewSet_set_status now (Account u) pk (Some (JString s)) st =
    (saved <- Analysis_save now (with_status s a) ;; ret (HTTP_200_OK saved)) st.
Proof.
  intros Hadm Hfind Hs. apply in_STATUS_CHOICES_iff in Hs.
  unfold AnalysisViewSet_set_status, set_status_permission,
    AnalysisViewSet_get_permissions, IsAdministrator.
  rewrite Hadm. change (negb true) with false. cbv beta iota.
  now rewrite (get_object_administrator u pk st Hadm), Hfind, Hs.
Qed.

(** C4.  A status that is absent, null, a boolean, a number or a string
    outside the four values is answered with an error response and the
    store is left as it was: 400 Bad Request for a caller who passes the
    permission check on an analysis within reach.  A status that is a list
    or an object is not answered: for such a caller the membership test
    raises [TypeError] out of the view (the store is left as it was). *)
Theorem set_status_unknown_value now r pk v st :
  (forall s, v = Some (JString s) -> ~ In s status_values) ->
  (hashable v = true ->
   exists resp,
     AnalysisViewSet_set_status now r pk v st = (Ok resp, st)
     /\ is_error_response resp = true
     /\ (set_status_permission r = true ->
         (exists a, AnalysisViewSet_get_object r pk st = Some a) ->
         resp = HTTP_400_BAD_REQUEST))
  /\ (hashable v = false ->
      set_status_permission r = true ->
      (exists a, AnalysisViewSet_get_object r pk st = Some a) ->
      AnalysisViewSet_set_status now r pk v st = (Raise TypeError, st)).
Proof.
  intros Hout. split.
  - intros Hh.
    assert (Hs : in_STATUS_CHOICES v = Ok false).
    { destruct v as [[| b | n | s | xs | kvs]|]; try reflexivity;
        try discriminate.
      destruct (in_STATUS_CHOICES (Some (JString s))) as [[|]|e] eqn:E;
        [|reflexivity|discriminate].
      apply in_STATUS_CHOICES_iff in E. now apply Hout in E. }
    unfold AnalysisViewSet_set_status, ret.
    destruct (set_status_permission r); simpl.
    + destruct (AnalysisViewSet_get_object r pk st) as [a|].
      * rewrite Hs. eexists; repeat split.
      * eexists; repeat split. intros _ [a Ha]. discriminate.
    + eexists; repeat split. discriminate.
  - intros Hh Hperm [a Ha].
    unfold AnalysisViewSet_set_status. rewrite Hperm.
    change (negb true) with false. cbv beta iota. rewrite Ha.
    destruct v as [[| b | n | s | xs | kvs]|]; try discriminate; reflexivity.
Qed.

Lemma set_status_saves now u pk s a st :
  is_administrator u = true ->
  find_analysis pk st = Some a ->
  In s status_values ->
  s <> "completed" \/ a_status a = "completed" ->
  exists a' st',
    AnalysisViewSet_set_status now (Account u) pk (Some (JString s)) st
    = (Ok (HTTP_200_OK a'), st')
    /\ a_status a' = s
    /\ find_analysis pk st' = Some a'.
Proof.
  intros Hm Hfind Hs Hquiet.
  rewrite (set_status_administrator now u pk s a st Hm Hfind Hs).
  unfold bind.
  rewrite (Analysis_save_existing now (with_status s a) pk a st);
    [|exact (find_analysis_has_pk pk st a Hfind)|exact Hfind].
  assert (Hpk : a_pk (stamp now (with_status s a)) = Some pk)
    by (rewrite stamp_pk; exact (find_analysis_has_pk pk st a Hfind)).
  assert (He : enters_completed a (with_status s a) = false).
  { unfold enters_completed. simpl a_status.
    destruct Hquiet as [Hn | Hc].
    - apply String.eqb_neq in Hn. rewrite Hn. apply andb_false_r.
    - now rewrite Hc. }
  rewrite He. unfold ret. do 2 eexists. split; [reflexivity|].
  split; [now rewrite stamp_status|].
  apply find_analysis_written; eauto.
Qed.

(** C3, as the code has it.  [set_status] does not look for a terminal
    status: for an administrator, an analysis stored in any status
    ("completed" and "cancelled" included) and a target among the four
    values that is not a move into "completed" from another status, the
    call answers 200 and the analysis is stored with the requested
    status. *)
Theorem set_status_from_any_state now u pk s a st :
  is_administrator u = true ->
  find_analysis pk st = Some a ->
  In s status_values ->
  s <> "completed" \/ a_status a = "completed" ->
  exists a' st',
    AnalysisViewSet_set_status now (Account u) pk (Some (JString s)) st
    = (Ok (HTTP_200_OK a'), st')
    /\ a_status a' = s
    /\ find_analysis pk st' = Some a'.
Proof. exact (set_status_saves now u pk s a st). Qed.

(** ** List scoping *)


(** ** Who may create patients and set statuses *)



(** ** Provisioning *)

Lemma get_or_create_sentinel_raises today user st :
  u_birth_date user = None ->
  filter (created_by_is (u_pk user)) (patients st) = [] ->
  Patient_objects_get_or_create today user st = (Raise TypeError, st).
Proof.
  intros Hb Hnone.
  unfold Patient_objects_get_or_create, Patient_objects_get.
  rewrite Hnone, Hb. reflexivity.
Qed.

Lemma get_or_provision_sentinel_raises today user st :
  u_birth_date user = None ->
  filter (created_by_is (u_pk user)) (patients st) = [] ->
  get_or_provision today user st = (Raise TypeError, st).
Proof.
  intros Hb Hnone.
  unfold get_or_provision, Patient_objects_get.
  rewrite Hnone, Hb. reflexivity.
Qed.

Lemma get_or_create_creates today user b st :
  u_birth_date user = Some b ->
  date_gtb b today = false ->
  filter (created_by_is (u_pk user)) (patients st) = [] ->
  let row := provisioned
               (next_pk (map (fun p => pk_of (p_pk p)) (patients st))) user b in
  Patient_objects_get_or_create today user st
  = (Ok (row, true), set_patients (patients st ++ [row]) st)
  /\ filter (created_by_is (u_pk user)) (patients st ++ [row]) = [row].
Proof.
  intros Hb Hfut Hnone row. split.
  - unfold Patient_objects_get_or_create, Patient_objects_get.
    rewrite Hnone, Hb. unfold bind, Patient_objects_create, Patient_save.
    simpl. rewrite Hfut. reflexivity.
  - rewrite filter_app, Hnone. simpl.
    unfold created_by_is. simpl. now rewrite Nat.eqb_refl.
Qed.

Lemma get_or_create_idempotent today user p st :
  filter (created_by_is (u_pk user)) (patients st) = [p] ->
  Patient_objects_get_or_create today user st = (Ok (p, false), st).
Proof.
  intros Hone. unfold Patient_objects_get_or_create, Patient_objects_get.
  now rewrite Hone.
Qed.

(** Where the account has a birth date that is not in the future, the
    provisioning of C7 works as described: one patient is created and
    linked, the missing names and gender are filled with the defaults, and
    every further call returns that patient and leaves the store alone. *)
Lemma provisioning_with_birth_date today user b st :
  u_birth_date user = Some b ->
  date_gtb b today = false ->
  filter (created_by_is (u_pk user)) (patients st) = [] ->
  exists p st1,
    Patient_objects_get_or_create today user st = (Ok (p, true), st1)
    /\ filter (created_by_is (u_pk user)) (patients st1) = [p]
    /\ p_created_by p = u_pk user
    /\ (u_last_name user = "" -> p_last_name p = "User")
    /\ (u_first_name user = "" -> p_first_name p = "Unknown")
    /\ (u_gender user = "" -> p_gender p = "O")
    /\ forall today',
         Patient_objects_get_or_create today' user st1 = (Ok (p, false), st1).
Proof.
  intros Hb Hfut Hnone.
  destruct (get_or_create_creates today user b st Hb Hfut Hnone) as [Hrun Hone].
  do 2 eexists. split; [exact Hrun|].
  split; [exact Hone|]. split; [reflexivity|].
  split; [intros H; simpl; now rewrite H|].
  split; [intros H; simpl; now rewrite H|].
  split; [intros H; simpl; now rewrite H|].
  intros today'. now apply get_or_create_idempotent.
Qed.

(** C7 at the failing input.  [demo_user] is a regular user without a
    birth date and without a patient.  Creating an analysis, through the
    API or through the HTML view, passes the string "2000-01-01" to
    [Patient.save], whose comparison with today's date raises [TypeError]:
    no patient is created and the store is left as it was. *)
Theorem provisioning_sentinel_birth_date_raises :
  is_regular_user demo_user = true
  /\ u_birth_date demo_user = None
  /\ filter (created_by_is (u_pk demo_user)) (patients demo_store) = []
  /\ AnalysisViewSet_create demo_today 100 (Account demo_user)
       (new_analysis 1 1 "") demo_store
     = (Raise TypeError, demo_store)
  /\ create_analysis demo_today 100 (Account demo_user) None demo_store
     = (Raise TypeError, demo_store).
Proof. repeat split; vm_compute; reflexivity. Qed.

(** ** [Patient.age] *)

Lemma days_in_month_other_year y y' m :
  m <> 2 -> days_in_month y m = days_in_month y' m.
Proof.
  intros Hm. unfold days_in_month.
  destruct (m =? 2) eqn:E; [apply Z.eqb_eq in E; contradiction|reflexivity].
Qed.

(** Away from 29 February (or in a leap year) the age is a non-negative
    integer. *)
Lemma Patient_age_defined today b self :
  p_birth_date self = PDate b ->
  date_valid b -> date_valid today ->
  date_leb b today = true ->
  (month b = 2 /\ day b = 29 -> is_leap (year today) = true) ->
  exists n, Patient_age today self = Ok (Some n) /\ 0 <= n.
Proof.
  intros Hself Hb Ht Hle Hfeb.
  unfold Patient_age. rewrite Hself. simpl truthy. cbv iota.
  unfold date_valid, date_fields_ok in Hb, Ht.
  repeat (apply andb_prop in Hb as [Hb ?]).
  repeat (apply andb_prop in Ht as [Ht ?]).
  assert (Hok : date_fields_ok (year today) (month b) (day b) = true).
  { unfold date_fields_ok. repeat (apply andb_true_intro; split); auto.
    apply Z.leb_le.
    destruct (Z.eq_dec (month b) 2) as [E|E].
    - unfold days_in_month in *. rewrite E in *. simpl in *.
      destruct (is_leap (year today)) eqn:L.
      + destruct (is_leap (year b)); lia.
      + destruct (Z.eq_dec (day b) 29) as [D|D];
          [specialize (Hfeb (conj eq_refl D)); discriminate|].
        destruct (is_leap (year b)); lia.
    - rewrite (days_in_month_other_year (year today) (year b) _ E). lia. }
  unfold date_new. rewrite Hok.
  unfold date_leb in Hle. apply negb_true_iff in Hle.
  unfold date_ltb in *. simpl.
  destruct (year today <? year b) eqn:Y1; simpl in Hle; [discriminate|].
  apply Z.ltb_ge in Y1.
  destruct (year today =? year b) eqn:Y2; simpl in Hle.
  - apply Z.eqb_eq in Y2. rewrite Hle, Z.ltb_irrefl, andb_false_r. simpl.
    exists (year today - year b). split; [reflexivity|lia].
  - destruct (_ || _); eexists; (split; [reflexivity|lia]).
Qed.

(** A birthday on 29 February makes the age fail in every year that is not
    a leap year. *)
Lemma Patient_age_leap_day today y self :
  p_birth_date self = PDate (mkdate y 2 29) ->
  is_leap (year today) = false ->
  Patient_age today self = Raise ValueError.
Proof.
  intros Hself Hleap. unfold Patient_age. rewrite Hself. simpl.
  unfold date_new, date_fields_ok, days_in_month. simpl.
  rewrite Hleap. simpl. now rewrite !andb_false_r.
Qed.

(** C10 at the failing input.  A patient born on 29 February 2000, a valid
    date before 1 March 2001: reading the age on that day builds
    [date(2001, 2, 29)] and raises [ValueError]. *)
Theorem age_of_leap_day_birthday_raises :
  date_valid (mkdate 2000 2 29)
  /\ date_valid (mkdate 2001 3 1)
  /\ date_leb (mkdate 2000 2 29) (mkdate 2001 3 1) = true
  /\ Patient_age (mkdate 2001 3 1) (born (mkdate 2000 2 29))
     = Raise ValueError.
Proof. repeat split. Qed.

(** ** Birth dates on the ways in *)

Lemma PatientForm_rejects today b :
  is_ok (PatientForm_clean_birth_date today (Some b)) = false
  <-> date_gtb b today = true \/ 150 * 36525 < 100 * days_between today b.
Proof.
  unfold PatientForm_clean_birth_date.
  destruct (date_gtb b today); [cbn [is_ok]; split; auto|].
  destruct (100 * days_between today b >? 150 * 36525) eqn:E; cbn [is_ok].
  - apply Z.gtb_lt in E. split; [intros _; right; lia|reflexivity].
  - rewrite Z.gtb_ltb in E. apply Z.ltb_ge in E.
    split; [discriminate|]. intros [H|H]; [discriminate|lia].
Qed.

(** C8 at the failing inputs, on 1 June 2025.  [PatientForm] rejects a
    birth date of 1 January 1800 and one of 1 January 2030.  The form that
    [create_patient] uses for a moderator, and the serializer of the API,
    have no such check: the patient born in 1800 is stored on both ways;
    the one born in 2030 stops at [Patient.save] with an uncaught
    [ValueError]. *)
Theorem birth_date_unchecked_on_create :
  is_ok (PatientForm_clean_birth_date demo_today (Some (mkdate 1800 1 1)))
    = false
  /\ is_ok (PatientForm_clean_birth_date demo_today (Some (mkdate 2030 1 1)))
     = false
  /\ (let '(r, st) := create_patient demo_today (Account demo_moderator)
                        (Some demo_old) demo_store in
      r = Ok (Redirect "medical_lab:patients_list")
      /\ option_map p_birth_date (find_patient 2 st)
         = Some (PDate (mkdate 1800 1 1)))
  /\ (let '(r, st) := PatientViewSet_create demo_today
                        (Account demo_moderator) (w_patient demo_old)
                        demo_store in
      is_ok r = true
      /\ option_map p_birth_date (find_patient 2 st)
         = Some (PDate (mkdate 1800 1 1)))
  /\ fst (create_patient demo_today (Account demo_moderator)
            (Some demo_unborn) demo_store)
     = Raise ValueError
  /\ fst (PatientViewSet_create demo_today (Account demo_moderator)
            (w_patient demo_unborn) demo_store)
     = Raise ValueError.
Proof. vm_compute. repeat split. Qed.

(** ** A patient created by a moderator *)

Lemma next_pk_fresh keys k : In k keys -> (k < next_pk keys)%nat.
Proof.
  unfold next_pk. induction keys as [|x rest IH]; simpl; [tauto|].
  intros [->|Hin]; [lia|]. specialize (IH Hin). lia.
Qed.

Lemma replace_row_last {A} (hit : A -> bool) (new x : A) (rows : list A) :
  (forall r, In r rows -> hit r = false) ->
  hit x = true ->
  replace_row hit new (rows ++ [x]) = (rows ++ [new])%list.
Proof.
  intros Hmiss Hx. induction rows as [|r rest IH]; simpl.
  - now rewrite Hx.
  - rewrite (Hmiss r (or_introl eq_refl)). f_equal.
    apply IH. intros r' Hin. apply Hmiss. now right.
Qed.

Lemma is_valid_email_free d st :
  PatientWithUserForm_is_valid d st = true ->
  existsb (fun u => String.eqb (u_email u) (w_email d)) (users st) = false.
Proof.
  unfold PatientWithUserForm_is_valid, PatientWithUserForm_clean.
  intros H. repeat (apply andb_prop in H as [H ?]).
  destruct (negb (w_password1 d =? "")%string
            && negb (w_password2 d =? "")%string
            && negb (w_password1 d =? w_password2 d)%string);
    [discriminate|].
  rewrite H in *. simpl in *.
  now destruct (existsb _ (users st)).
Qed.

Lemma PatientWithUserForm_save_stores today d creator st :
  PatientWithUserForm_is_valid d st = true ->
  date_gtb (d_birth_date (w_patient d)) today = false ->
  PatientWithUserForm_save today d (Some creator) st
  = (Ok (new_patient d (u_pk creator) st),
     mkStore (users st ++ [new_account d st]) (group_names st)
             (patients st ++ [new_patient d (u_pk creator) st])
             (analyses st) (outbox st)).
Proof.
  intros Hvalid Hfut.
  unfold PatientWithUserForm_save, User_objects_create_user, User_save, bind.
  cbn [u_email]. rewrite (is_valid_email_free d st Hvalid).
  unfold add_to_users_group, new_account, new_patient.
  cbn -[next_pk existsb String.eqb].
  destruct (existsb (String.eqb "users") (group_names st)).
  - cbn -[next_pk]. rewrite replace_row_last.
    + unfold Patient_save. cbn -[next_pk]. rewrite Hfut. reflexivity.
    + intros r Hin. apply Nat.eqb_neq.
      pose proof (next_pk_fresh (map u_pk (users st)) (u_pk r)
                    (in_map u_pk _ _ Hin)). lia.
    + apply Nat.eqb_refl.
  - unfold Patient_save. cbn -[next_pk]. rewrite Hfut. reflexivity.
Qed.

Lemma filter_none {A} (f : A -> bool) (l : list A) :
  (forall x, In x l -> f x = false) -> filter f l = [].
Proof.
  induction l as [|x rest IH]; simpl; intros H; [reflexivity|].
  rewrite (H x (or_introl eq_refl)). apply IH. intros y Hy. apply H. now right.
Qed.

Lemma Analysis_save_new now self st :
  a_pk self = None ->
  Analysis_save now self st =
    let row := with_pk (next_pk (map (fun a => pk_of (a_pk a)) (analyses st)))
                       (stamp now self) in
    (Ok row, set_analyses (analyses st ++ [row]) st).
Proof.
  intros Hpk. unfold Analysis_save. fold (stamp now self).
  unfold Model_save_analysis, handle_analysis_status_change, bind, ret.
  rewrite stamp_pk, Hpk. cbv beta iota. now rewrite stamp_pk, Hpk.
Qed.

(** C9.  A moderator submits a valid patient-with-user form whose birth
    date is not in the future, in a store whose patients all point to
    stored accounts.  The view stores one new account and one new patient;
    the patient's created_by is the moderator, not the new account, which
    is a regular user owning no patient.  When that account later creates
    an analysis through the API, a second, separate patient is provisioned
    for it and the analysis is filed under that one. *)
Theorem moderator_created_patient_belongs_to_moderator
  today moderator d st :
  is_moderator moderator = true ->
  In (u_pk moderator) (map u_pk (users st)) ->
  (forall p, In p (patients st) -> In (p_created_by p) (map u_pk (users st))) ->
  PatientWithUserForm_is_valid d st = true ->
  date_gtb (d_birth_date (w_patient d)) today = false ->
  exists p account st1,
    create_patient today (Account moderator) (Some d) st
    = (Ok (Redirect "medical_lab:patients_list"), st1)
    /\ patients st1 = (patients st ++ [p])%list
    /\ users st1 = (users st ++ [account])%list
    /\ u_email account = w_email d
    /\ p_created_by p = u_pk moderator
    /\ u_pk account <> u_pk moderator
    /\ is_regular_user account = true
    /\ filter (created_by_is (u_pk account)) (patients st1) = []
    /\ forall today' now patient type notes,
         date_gtb (d_birth_date (w_patient d)) today' = false ->
         exists p' a st2,
           AnalysisViewSet_create today' now (Account account)
             (new_analysis patient type notes) st1
           = (Ok (HTTP_201_CREATED a), st2)
           /\ patients st2 = (patients st1 ++ [p'])%list
           /\ p_created_by p' = u_pk account
           /\ p_pk p' <> p_pk p
           /\ a_patient a = pk_of (p_pk p').
Proof.
  intros Hmod Hstored Hfk Hvalid Hfut.
  set (account := new_account d st).
  set (p := new_patient d (u_pk moderator) st).
  assert (Hfresh : forall k, In k (map u_pk (users st)) -> k <> u_pk account).
  { intros k Hin. pose proof (next_pk_fresh _ _ Hin). simpl. lia. }
  assert (Hreg : is_regular_user account = true).
  { unfold account, new_account.
    now destruct (existsb (String.eqb "users") (group_names st)). }
  assert (Hnone : filter (created_by_is (u_pk account)) (patients st ++ [p])
                  = []).
  { apply filter_none. intros x Hin. apply Nat.eqb_neq.
    apply in_app_or in Hin as [Hin|[<-|[]]].
    - apply Hfresh. now apply Hfk.
    - simpl. now apply Hfresh. }
  exists p, account. eexists.
  split.
  { unfold create_patient, is_regular_user.
    rewrite Hmod, orb_true_r. change (negb true) with false.
    cbv beta iota. rewrite Hvalid.
    unfold bind.
    rewrite (PatientWithUserForm_save_stores today d moderator st Hvalid Hfut).
    reflexivity. }
  cbn [patients users].
  split; [reflexivity|]. split; [reflexivity|]. split; [reflexivity|].
  split; [reflexivity|].
  split; [intros E; now apply (Hfresh (u_pk moderator))|].
  split; [exact Hreg|]. split; [exact Hnone|].
  intros today' now patient type notes Hfut'.
  match goal with |- context [AnalysisViewSet_create _ _ _ _ ?s] =>
    set (st1 := s) end.
  destruct (get_or_create_creates today' account (d_birth_date (w_patient d))
              st1 eq_refl Hfut' Hnone) as [Hrun _].
  cbv zeta in Hrun.
  unfold AnalysisViewSet_create, AnalysisViewSet_get_permissions,
    IsRegularUser, AnalysisViewSet_perform_create.
  rewrite Hreg, orb_true_r. unfold bind at 1 2. rewrite Hrun.
  cbn [fst]. rewrite Analysis_save_new by reflexivity. cbv zeta.
  unfold ret. do 3 eexists.
  split; [reflexivity|].
  split; [reflexivity|]. split; [reflexivity|].
  split.
  - intros E.
    pose proof (next_pk_fresh
                  (map (fun q => pk_of (p_pk q)) (patients st ++ [p]))
                  (next_pk (map (fun q => pk_of (p_pk q)) (patients st)))) as H.
    assert (Hin : In (next_pk (map (fun q => pk_of (p_pk q)) (patients st)))
                     (map (fun q => pk_of (p_pk q)) (patients st ++ [p])))
      by (rewrite map_app; apply in_or_app; right; now left).
    specialize (H Hin).
    apply (f_equal pk_of) in E.
    subst st1 p. cbn [p_pk provisioned patients new_patient pk_of] in E, H.
    rewrite E in H. exact (Nat.lt_irrefl _ H).
  - reflexivity.
Qed.

(** ** The claims at the sample data *)



Lemma completion_notification_raises_witness :
  find_analysis 1 demo_store = Some demo_analysis
  /\ AnalysisViewSet_set_status 100 (Account demo_chief) 1
       (Some (JString "completed")) demo_store
     = (Raise AttributeError, demo_store)
  /\ add_analysis_result 100 (Account demo_moderator) 1
       (Some ("Hb 140", "ok")) demo_store
     = (Raise AttributeError, demo_store).
Proof.
  split; [reflexivity|].
  destruct (completion_notification_raises 100 1 demo_store demo_analysis)
    as (_ & H1 & H2); [reflexivity|discriminate|].
  split; [apply H1; reflexivity|apply H2; reflexivity].
Defined.

(** Against C3 as stated: the analysis of [demo_done_store] is completed;
    a set_status to "registered" by the head of the laboratory is answered
    200 and the analysis is stored as registered. *)
Lemma terminal_status_left_counterexample :
  stored_status 1 demo_done_store = Some "completed"
  /\ (let '(r, st) := AnalysisViewSet_set_status 200 (Account demo_chief)
                        1 (Some (JString "registered")) demo_done_store in
      (exists a, r = Ok (HTTP_200_OK a))
      /\ stored_status 1 st = Some "registered").
Proof.
  split; [reflexivity|]. vm_compute. split; [eexists|]; reflexivity.
Qed.

Lemma set_status_from_any_state_witness :
  stored_status 1 demo_done_store = Some "completed"
  /\ exists a' st',
       AnalysisViewSet_set_status 200 (Account demo_chief) 1
         (Some (JString "cancelled")) demo_done_store
       = (Ok (HTTP_200_OK a'), st')
       /\ a_status a' = "cancelled"
       /\ find_analysis 1 st' = Some a'.
Proof.
  split; [reflexivity|].
  apply (set_status_from_any_state 200 demo_chief 1 "cancelled"
           demo_done demo_done_store).
  - reflexivity.
  - reflexivity.
  - simpl. tauto.
  - left. discriminate.
Defined.

Lemma set_status_unknown_value_witness :
  AnalysisViewSet_set_status 100 (Account demo_chief) 1
    (Some (JString "unknown_status")) demo_store
  = (Ok HTTP_400_BAD_REQUEST, demo_store)
  /\ AnalysisViewSet_set_status 100 (Account demo_chief) 1
       (Some (JArray [JString "completed"])) demo_store
     = (Raise TypeError, demo_store).
Proof.
  split.
  - destruct (set_status_unknown_value 100 (Account demo_chief) 1
                (Some (JString "unknown_status")) demo_store)
      as [H _].
    + intros s E. injection E as <-. simpl. intuition discriminate.
    + destruct (H eq_refl) as (resp & Hrun & _ & H400).
      rewrite Hrun, H400; [reflexivity|reflexivity|].
      eexists. reflexivity.
  - destruct (set_status_unknown_value 100 (Account demo_chief) 1
                (Some (JArray [JString "completed"])) demo_store)
      as [_ H].
    + intros s E. discriminate.
    + apply H; [reflexivity|reflexivity|]. eexists. reflexivity.
Defined.




Lemma moderator_created_patient_witness :
  is_moderator demo_moderator = true
  /\ PatientWithUserForm_is_valid demo_form demo_store = true
  /\ exists p account st1,
       create_patient demo_today (Account demo_moderator) (Some demo_form)
         demo_store
       = (Ok (Redirect "medical_lab:patients_list"), st1)
       /\ p_created_by p = u_pk demo_moderator
       /\ u_pk account <> u_pk demo_moderator
       /\ filter (created_by_is (u_pk account)) (patients st1) = [].
Proof.
  split; [reflexivity|]. split; [reflexivity|].
  destruct (moderator_created_patient_belongs_to_moderator demo_today
              demo_moderator demo_form demo_store)
    as (p & account & st1 & H1 & _ & _ & _ & H5 & H6 & _ & H8 & _).
  - reflexivity.
  - simpl. tauto.
  - intros p [<-|[]]. simpl. tauto.
  - reflexivity.
  - reflexivity.
  - exists p, account, st1. repeat split; assumption.
Defined.

(** * Further properties *)

(** ** Creating an analysis *)

Lemma find_app_last {A} (hit : A -> bool) (x : A) (rows : list A) :
  (forall r, In r rows -> hit r = false) ->
  hit x = true ->
  find hit (rows ++ [x]) = Some x.
Proof.
  intros Hmiss Hx. induction rows as [|r rest IH]; simpl.
  - now rewrite Hx.
  - rewrite (Hmiss r (or_introl eq_refl)). apply IH.
    intros r' Hin. apply Hmiss. now right.
Qed.

Lemma has_pk_next_analysis st a :
  In a (analyses st) ->
  has_pk (next_pk (map (fun x => pk_of (a_pk x)) (analyses st))) (a_pk a)
  = false.
Proof.
  intros Hin. destruct (a_pk a) as [k|] eqn:Hk; [|reflexivity].
  simpl. apply Nat.eqb_neq.
  pose proof (next_pk_fresh (map (fun x => pk_of (a_pk x)) (analyses st)) k)
    as H.
  assert (Hk' : In k (map (fun x => pk_of (a_pk x)) (analyses st))).
  { apply in_map_iff. exists a. now rewrite Hk. }
  specialize (H Hk'). lia.
Qed.

(** X1.  Saving a new analysis (no key yet) always succeeds: the row is
    appended under a key that no stored analysis has and can be read back
    under it, nothing else in the store changes, and no message is sent,
    whatever the status.  An analysis created as "completed" without a date
    is stamped with the instant of the save. *)
Theorem creating_an_analysis_never_notifies now self st :
  a_pk self = None ->
  exists row st',
    Analysis_save now self st = (Ok row, st')
    /\ analyses st' = (analyses st ++ [row])%list
    /\ outbox st' = outbox st
    /\ patients st' = patients st
    /\ (forall a, In a (analyses st) -> a_pk a <> a_pk row)
    /\ find_analysis (pk_of (a_pk row)) st' = Some row
    /\ a_status row = a_status self
    /\ (a_status self = "completed" -> a_completion_date self = None ->
        a_completion_date row = Some now)
    /\ (a_status self <> "completed" ->
        a_completion_date row = a_completion_date self).
Proof.
  intros Hpk. rewrite (Analysis_save_new now self st Hpk). cbv zeta.
  set (k := next_pk (map (fun a => pk_of (a_pk a)) (analyses st))).
  do 2 eexists. split; [reflexivity|]. cbn [analyses outbox patients set_analyses].
  split; [reflexivity|]. split; [reflexivity|]. split; [reflexivity|].
  split.
  { intros a Hin E. pose proof (has_pk_next_analysis st a Hin) as H.
    fold k in H. rewrite E in H. simpl in H. now rewrite Nat.eqb_refl in H. }
  split.
  { unfold find_analysis. cbn [analyses set_analyses a_pk with_pk pk_of].
    apply find_app_last.
    - intros r Hin. now apply has_pk_next_analysis.
    - apply has_pk_refl. }
  split; [cbn [a_status with_pk]; apply stamp_status|].
  split.
  - intros Hs Hd. cbn [a_completion_date with_pk]. unfold stamp.
    rewrite Hs, Hd. reflexivity.
  - intros Hs. cbn [a_completion_date with_pk]. unfold stamp.
    apply String.eqb_neq in Hs. now rewrite Hs.
Qed.

Lemma creating_an_analysis_witness :
  a_pk (new_analysis 1 1 "") = None
  /\ exists row st',
       Analysis_save 100 (with_status "completed" (new_analysis 1 1 "")) demo_store
       = (Ok row, st')
       /\ outbox st' = outbox demo_store
       /\ a_completion_date row = Some 100.
Proof.
  split; [reflexivity|].
  destruct (creating_an_analysis_never_notifies 100
              (with_status "completed" (new_analysis 1 1 "")) demo_store
              eq_refl)
    as (row & st' & H1 & _ & H3 & _ & _ & _ & _ & H8 & _).
  exists row, st'. split; [exact H1|]. split; [exact H3|].
  apply H8; reflexivity.
Defined.

(** ** Attaching a result *)

Lemma add_analysis_result_effect now u pk res notes a st :
  is_moderator u = true ->
  find_analysis pk st = Some a ->
  a_status a = "completed" ->
  let self := with_status "completed"
                (with_result res notes (Some (u_pk u)) a) in
  exists st',
    add_analysis_result now (Account u) pk (Some (res, notes)) st
    = (Ok (Redirect "medical_lab:analysis_detail"), st')
    /\ find_analysis pk st' = Some (stamp now self)
    /\ patients st' = patients st
    /\ outbox st' = outbox st.
Proof.
  intros Hm Hfind Hc self.
  assert (Hpk : a_pk self = Some pk)
    by exact (find_analysis_has_pk pk st a Hfind).
  unfold add_analysis_result. rewrite Hm. change (negb true) with false.
  cbv beta iota. rewrite Hfind. unfold bind. fold self.
  rewrite (Analysis_save_existing now self pk a st Hpk Hfind).
  unfold enters_completed. rewrite Hc.
  change (negb ("completed" =? "completed")%string) with false.
  cbv beta iota. cbn [andb]. unfold ret.
  assert (Hst : a_pk (stamp now self) = Some pk) by now rewrite stamp_pk.
  eexists. split; [reflexivity|].
  split; [apply find_analysis_written; eauto|]. split; reflexivity.
Qed.

(** X2.  [add_analysis_result] by a moderator with a valid form.  On an
    analysis stored as "completed": the submitted result and notes and the
    acting moderator as lab technician are stored; status, patient and
    analysis type are kept; the completion date is the stored one if there
    is one and the instant of the request otherwise; the patients and the
    outbox are left as they were.  On an analysis stored in any other
    status the view raises [AttributeError] and stores nothing. *)
Theorem add_analysis_result_needs_completed now u pk res notes a st :
  is_moderator u = true ->
  find_analysis pk st = Some a ->
  (a_status a <> "completed" ->
   add_analysis_result now (Account u) pk (Some (res, notes)) st
   = (Raise AttributeError, st))
  /\ (a_status a = "completed" ->
      exists a' st',
        add_analysis_result now (Account u) pk (Some (res, notes)) st
        = (Ok (Redirect "medical_lab:analysis_detail"), st')
        /\ find_analysis pk st' = Some a'
        /\ a_status a' = "completed"
        /\ a_result a' = res
        /\ a_notes a' = notes
        /\ a_lab_technician a' = Some (u_pk u)
        /\ a_patient a' = a_patient a
        /\ a_analysis_type a' = a_analysis_type a
        /\ a_completion_date a'
           = match a_completion_date a with
             | Some t => Some t
             | None => Some now
             end
        /\ patients st' = patients st
        /\ outbox st' = outbox st).
Proof.
  intros Hm Hfind. split.
  - intros Hs.
    assert (Hpk : a_pk a = Some pk)
      by exact (find_analysis_has_pk pk st a Hfind).
    unfold add_analysis_result. rewrite Hm. change (negb true) with false.
    cbv beta iota. rewrite Hfind. unfold bind.
    rewrite (Analysis_save_existing now
               (with_status "completed"
                  (with_result res notes (Some (u_pk u)) a)) pk a st
               Hpk Hfind).
    unfold enters_completed. apply String.eqb_neq in Hs. rewrite Hs.
    reflexivity.
  - intros Hc.
    destruct (add_analysis_result_effect now u pk res notes a st Hm Hfind Hc)
      as (st' & Hrun & Hrow & Hpat & Hout).
    eexists. exists st'. split; [exact Hrun|]. split; [exact Hrow|].
    repeat split; try exact Hout; try exact Hpat;
      unfold stamp; simpl; destruct (a_completion_date a) eqn:Hd; simpl;
      rewrite ?Hd; reflexivity.
Qed.

Lemma add_analysis_result_witness :
  find_analysis 1 demo_done_store = Some demo_done
  /\ exists a' st',
       add_analysis_result 300 (Account demo_moderator) 1
         (Some ("Hb 140", "ok")) demo_done_store
       = (Ok (Redirect "medical_lab:analysis_detail"), st')
       /\ find_analysis 1 st' = Some a'
       /\ a_result a' = "Hb 140"
       /\ a_lab_technician a' = Some 1%nat
       /\ a_completion_date a' = Some 100
       /\ outbox st' = [].
Proof.
  split; [reflexivity|].
  destruct (add_analysis_result_needs_completed 300 demo_moderator 1
              "Hb 140" "ok" demo_done demo_done_store eq_refl eq_refl)
    as [_ H].
  destruct (H eq_refl)
    as (a' & st' & H1 & H2 & _ & H4 & _ & H6 & _ & _ & H9 & _ & H11).
  exists a', st'. repeat split; assumption.
Defined.

(** X3.  Attaching a result twice to an analysis stored as "completed":
    the second call, at a later instant and with whatever result and by
    whatever moderator, replaces result, notes and lab technician and
    keeps the completion date that the first call left; neither call
    sends a message. *)
Theorem add_analysis_result_twice
  now1 now2 u1 u2 pk res1 notes1 res2 notes2 a st :
  is_moderator u1 = true ->
  is_moderator u2 = true ->
  find_analysis pk st = Some a ->
  a_status a = "completed" ->
  let st1 := snd (add_analysis_result now1 (Account u1) pk
                    (Some (res1, notes1)) st) in
  let st2 := snd (add_analysis_result now2 (Account u2) pk
                    (Some (res2, notes2)) st1) in
  stored_completion_date pk st2 = stored_completion_date pk st1
  /\ stored_completion_date pk st1 <> None
  /\ outbox st2 = outbox st
  /\ option_map a_result (find_analysis pk st2) = Some res2
  /\ option_map a_lab_technician (find_analysis pk st2) = Some (Some (u_pk u2)).
Proof.
  intros Hm1 Hm2 Hfind Hc st1 st2.
  destruct (add_analysis_result_effect now1 u1 pk res1 notes1 a st
              Hm1 Hfind Hc) as (s1 & Hrun1 & Hrow1 & _ & Hout1).
  assert (E1 : st1 = s1) by (unfold st1; now rewrite Hrun1).
  assert (Hc1 : a_status
                  (stamp now1
                     (with_status "completed"
                        (with_result res1 notes1 (Some (u_pk u1)) a)))
                = "completed") by now rewrite stamp_status.
  destruct (add_analysis_result_effect now2 u2 pk res2 notes2 _ s1
              Hm2 Hrow1 Hc1) as (s2 & Hrun2 & Hrow2 & _ & Hout2).
  assert (E2 : st2 = s2) by (unfold st2; rewrite E1; now rewrite Hrun2).
  rewrite E1, E2. unfold stored_completion_date.
  rewrite Hrow1, Hrow2, Hout2, Hout1.
  unfold stamp. simpl.
  destruct (a_completion_date a) eqn:Hd; simpl; rewrite ?Hd;
    repeat split; auto; discriminate.
Qed.

Lemma add_analysis_result_twice_witness :
  let st1 := snd (add_analysis_result 200 (Account demo_moderator) 1
                    (Some ("Hb 140", "")) demo_done_store) in
  let st2 := snd (add_analysis_result 300 (Account demo_chief) 1
                    (Some ("Hb 150", "repeated")) st1) in
  stored_completion_date 1 st2 = stored_completion_date 1 st1
  /\ option_map a_result (find_analysis 1 st2) = Some "Hb 150".
Proof.
  destruct (add_analysis_result_twice 200 300 demo_moderator demo_chief 1
              "Hb 140" "" "Hb 150" "repeated" demo_done
              demo_done_store eq_refl eq_refl eq_refl eq_refl)
    as (H1 & _ & _ & H4 & _).
  split; [exact H1|exact H4].
Defined.

(** ** What the roles can do to a stored analysis *)

Lemma row_after_status pk q a st' a' :
  row_after pk q a st' a' ->
  a_status a' = a_status a
  \/ (exists r s, s_request q = SetStatus r (Some (JString s))
                  /\ IsAdministrator r = true
                  /\ In s status_values /\ a_status a' = s).
Proof.
  intros [ | r s Hq Hadm Hs _ | u res notes Hq Hm Hc
           | u patient type notes p Hq _ _ _].
  - now left.
  - right. exists r, s. rewrite stamp_status. auto.
  - left. now rewrite stamp_status, Hc.
  - left. now rewrite stamp_status.
Qed.

(** X4.  The stored status never leaves the four defined values: if it is
    one of them, it is one of them after every sequence of set_status,
    add_analysis_result and edit_analysis requests, whoever sends them and
    whatever they carry. *)
Theorem stored_status_stays_defined pk qs : forall st a,
  find_analysis pk st = Some a ->
  In (a_status a) status_values ->
  exists a',
    find_analysis pk (serve_all pk qs st) = Some a'
    /\ In (a_status a') status_values.
Proof.
  induction qs as [|q rest IH]; intros st a Hfind Hin; simpl.
  - now exists a.
  - destruct (serve_row pk q st a Hfind) as (a1 & Hfind1 & Hrow & _).
    apply (IH _ a1 Hfind1).
    destruct (row_after_status _ _ _ _ _ Hrow)
      as [E | (r & s & _ & _ & Hs & E)].
    + now rewrite E.
    + now rewrite E.
Qed.

Lemma stored_status_stays_defined_witness :
  exists a',
    find_analysis 1 (serve_all 1 demo_reentry demo_store) = Some a'
    /\ In (a_status a') status_values.
Proof.
  apply (stored_status_stays_defined 1 demo_reentry demo_store demo_analysis).
  - reflexivity.
  - simpl. tauto.
Defined.

(** X5.  A stored analysis that is not completed is never stored as
    "completed" afterwards (keys being unique): not after any sequence of
    set_status, add_analysis_result, edit_analysis, update and
    partial_update requests, whoever sends them and whatever they carry.
    Every save that would move it there raises in the receiver. *)
Theorem stored_analysis_never_completes pk cs : forall st a,
  find_analysis pk st = Some a ->
  NoDup (map a_pk (analyses st)) ->
  a_status a <> "completed" ->
  exists a',
    find_analysis pk (serve_calls pk cs st) = Some a'
    /\ a_status a' <> "completed".
Proof.
  induction cs as [|c rest IH]; intros st a Hfind Hnd Hs; simpl.
  - now exists a.
  - destruct (serve_call_row pk c st a Hfind Hnd)
      as (a1 & Hfind1 & Hnd1 & _ & Hrow).
    apply (IH _ a1 Hfind1 Hnd1).
    destruct Hrow as [-> | (self & -> & He & _)]; [exact Hs|].
    rewrite stamp_status. unfold enters_completed in He.
    apply String.eqb_neq in Hs. rewrite Hs in He. simpl in He.
    now apply String.eqb_neq.
Qed.

Lemma stored_analysis_never_completes_witness :
  stored_status 1 demo_store = Some "registered"
  /\ exists a',
       find_analysis 1
         (serve_calls 1
            (mkTimed demo_today 100
               (View (SetStatus (Account demo_chief)
                        (Some (JString "completed"))))
             :: demo_calls) demo_store) = Some a'
       /\ a_status a' <> "completed".
Proof.
  split; [reflexivity|].
  apply (stored_analysis_never_completes 1 _ demo_store demo_analysis).
  - reflexivity.
  - simpl. repeat constructor. simpl. tauto.
  - discriminate.
Defined.

(** X6.  Through set_status, add_analysis_result and edit_analysis a
    regular user cannot change the status, the result or the lab
    technician of any analysis; where such a request of theirs changes the
    row at all, the analysis is afterwards filed under a patient whose
    created_by is the user.  (The partial_update action is another way in;
    it is treated below.) *)
Theorem regular_user_cannot_change_status pk q u st a :
  request_user (s_request q) = Account u ->
  is_regular_user u = true ->
  find_analysis pk st = Some a ->
  exists a',
    find_analysis pk (serve pk q st) = Some a'
    /\ a_status a' = a_status a
    /\ a_result a' = a_result a
    /\ a_lab_technician a' = a_lab_technician a
    /\ (a' = a
        \/ exists p, In p (patients (serve pk q st))
                     /\ p_pk p = Some (a_patient a')
                     /\ p_created_by p = u_pk u).
Proof.
  intros Hu Hreg Hfind.
  assert (Hroles : is_administrator u = false /\ is_moderator u = false).
  { unfold is_regular_user in Hreg. apply negb_true_iff in Hreg.
    now apply orb_false_iff in Hreg. }
  destruct Hroles as [Hadm Hmod].
  destruct (serve_row pk q st a Hfind) as (a' & Hfind' & Hrow & _).
  exists a'. split; [exact Hfind'|].
  destruct Hrow
    as [ | r s Hq Hr _ _ | u' res notes Hq Hm _
         | u' patient type notes p Hq Hin Hp Hown].
  - repeat split; auto.
  - rewrite Hq in Hu. simpl in Hu. subst r. simpl in Hr. congruence.
  - rewrite Hq in Hu. simpl in Hu. injection Hu as ->. congruence.
  - rewrite Hq in Hu. simpl in Hu. injection Hu as ->.
    rewrite stamp_status, stamp_patient.
    split; [reflexivity|].
    split; [unfold stamp; destruct (_ && _); reflexivity|].
    split; [unfold stamp; destruct (_ && _); reflexivity|].
    right. exists p. auto.
Qed.

Lemma regular_user_cannot_change_status_witness :
  exists a',
    find_analysis 2
      (serve 2 (mkStamped demo_today 300
                  (AddResult (Account demo_user) (Some ("Hb 1", ""))))
         demo_shared_store) = Some a'
    /\ a_status a' = "registered"
    /\ a_result a' = "".
Proof.
  destruct (regular_user_cannot_change_status 2
              (mkStamped demo_today 300
                 (AddResult (Account demo_user) (Some ("Hb 1", ""))))
              demo_user demo_shared_store demo_own_analysis
              eq_refl eq_refl eq_refl)
    as (a' & H1 & H2 & H3 & _).
  exists a'. auto.
Defined.

(** ** The update actions and the owner *)

Lemma find_filter_first {A} (hit keep : A -> bool) (rows : list A) (x : A) :
  find hit rows = Some x ->
  keep x = true ->
  find hit (filter keep rows) = Some x.
Proof.
  intros Hfind Hkeep.
  induction rows as [|r rest IH]; simpl in *; [discriminate|].
  destruct (hit r) eqn:Hr.
  - injection Hfind as ->. rewrite Hkeep. simpl. now rewrite Hr.
  - destruct (keep r); simpl; rewrite ?Hr; now apply IH.
Qed.

(** X22.  A regular user has no way to write to an analysis filed under a
    patient that someone else created (keys being unique): whichever of
    set_status, add_analysis_result, edit_analysis, update and
    partial_update they send, with whatever body, the store is left
    exactly as it was. *)
Theorem foreign_analysis_out_of_reach pk c u st a :
  call_user (c_call c) = Account u ->
  is_regular_user u = true ->
  find_analysis pk st = Some a ->
  NoDup (map a_pk (analyses st)) ->
  patient_created_by_is st (u_pk u) a = false ->
  serve_call pk c st = st.
Proof.
  intros Hu Hreg Hfind Hnd Hforeign.
  assert (Hroles : is_administrator u = false /\ is_moderator u = false).
  { unfold is_regular_user in Hreg. apply negb_true_iff in Hreg.
    now apply orb_false_iff in Hreg. }
  destruct Hroles as [Hadm Hmod].
  unfold serve_call.
  destruct c as [today now [[r s | r post | r post] | r partial y]];
    cbn [c_call c_now c_today call_user request_user] in *; subst r;
    unfold serve; cbn [s_request s_now s_today].
  - unfold AnalysisViewSet_set_status, set_status_permission,
      AnalysisViewSet_get_permissions, IsAdministrator.
    now rewrite Hadm.
  - unfold add_analysis_result. now rewrite Hmod.
  - unfold edit_analysis. rewrite Hfind, Hadm, Hmod, Hreg, Hforeign.
    reflexivity.
  - unfold AnalysisViewSet_update.
    replace (AnalysisViewSet_get_permissions
               (if partial then act_partial_update else act_update)
               (Account u))
      with true by now destruct partial.
    change (negb true) with false. cbv beta iota.
    destruct (AnalysisViewSet_get_object (Account u) pk st) as [x|] eqn:Hx;
      [|reflexivity].
    destruct (get_object_is_row (Account u) pk st a x Hfind Hnd Hx)
      as [_ Hin].
    unfold AnalysisViewSet_get_queryset in Hin.
    rewrite Hadm, Hmod, Hreg in Hin.
    apply filter_In in Hin as [_ Hin]. congruence.
Qed.

Lemma foreign_analysis_out_of_reach_witness :
  serve_call 1
    (mkTimed demo_today 300 (ApiUpdate (Account demo_user) true demo_dating))
    demo_shared_store
  = demo_shared_store.
Proof.
  apply (foreign_analysis_out_of_reach 1 _ demo_user demo_shared_store
           demo_analysis).
  - reflexivity.
  - reflexivity.
  - reflexivity.
  - simpl. repeat constructor; simpl; intuition discriminate.
  - reflexivity.
Defined.

(** X23.  A partial update lets the regular user who created the patient
    of an analysis write its status: for a target among the four values
    that is not a move into "completed" from another status the answer is
    200 and the analysis is stored with the requested status, its other
    fields as they were. *)
Theorem owner_can_patch_status now u pk s a st :
  is_regular_user u = true ->
  find_analysis pk st = Some a ->
  patient_created_by_is st (u_pk u) a = true ->
  In s status_values ->
  s <> "completed" \/ a_status a = "completed" ->
  exists st',
    AnalysisViewSet_update now (Account u) pk true
      (mkAnalysisPayload None None (Some s) None None None None) st
    = (Ok (HTTP_200_OK (stamp now (with_status s a))), st')
    /\ find_analysis pk st' = Some (stamp now (with_status s a))
    /\ a_status (stamp now (with_status s a)) = s.
Proof.
  intros Hreg Hfind Hown Hs Hquiet.
  assert (Hroles : is_administrator u = false /\ is_moderator u = false).
  { unfold is_regular_user in Hreg. apply negb_true_iff in Hreg.
    now apply orb_false_iff in Hreg. }
  destruct Hroles as [Hadm Hmod].
  assert (Hpk : a_pk a = Some pk) by exact (find_analysis_has_pk pk st a Hfind).
  assert (Hobj : AnalysisViewSet_get_object (Account u) pk st = Some a).
  { unfold AnalysisViewSet_get_object, AnalysisViewSet_get_queryset.
    rewrite Hadm, Hmod, Hreg. now apply find_filter_first. }
  assert (Hperm : has_object_permission_analysis st (Account u) a = Ok true).
  { unfold has_object_permission_analysis. rewrite Hadm, Hmod. simpl.
    unfold patient_created_by_is in Hown.
    destruct (find_patient (a_patient a) st); [now rewrite Hown|discriminate]. }
  assert (Hvalid : AnalysisSerializer_is_valid true
                     (mkAnalysisPayload None None (Some s) None None None None)
                     st = true).
  { apply in_STATUS_CHOICES_iff in Hs. unfold in_STATUS_CHOICES in Hs.
    injection Hs as Hs. unfold AnalysisSerializer_is_valid.
    simpl in *. now rewrite Hs. }
  assert (He : enters_completed a (with_status s a) = false).
  { unfold enters_completed. simpl a_status.
    destruct Hquiet as [Hn | Hc].
    - apply String.eqb_neq in Hn. rewrite Hn. apply andb_false_r.
    - now rewrite Hc. }
  assert (Hself : apply_payload
                    (mkAnalysisPayload None None (Some s) None None None None)
                    a = with_status s a) by reflexivity.
  unfold AnalysisViewSet_update.
  cbn [AnalysisViewSet_get_permissions negb].
  rewrite Hobj, Hperm, Hvalid, Hself. cbn [negb]. unfold bind, ret.
  rewrite (Analysis_save_existing now (with_status s a) pk a st Hpk Hfind), He.
  eexists. split; [reflexivity|].
  split; [|now rewrite stamp_status].
  apply find_analysis_written; [now rewrite stamp_pk|reflexivity|eauto].
Qed.

Lemma owner_can_patch_status_witness :
  is_regular_user demo_user = true
  /\ exists st',
       AnalysisViewSet_update 300 (Account demo_user) 2 true
         (mkAnalysisPayload None None (Some "cancelled") None None None None)
         demo_shared_store
       = (Ok (HTTP_200_OK (stamp 300 (with_status "cancelled"
                                        demo_own_analysis))), st')
       /\ stored_status 2 st' = Some "cancelled".
Proof.
  split; [reflexivity|].
  destruct (owner_can_patch_status 300 demo_user 2 "cancelled"
              demo_own_analysis demo_shared_store)
    as (st' & H1 & H2 & H3);
    [reflexivity|reflexivity|reflexivity|simpl; tauto|left; discriminate|].
  exists st'. split; [exact H1|].
  unfold stored_status. rewrite H2. reflexivity.
Defined.

(** ** Provisioning keeps one patient per account *)

Lemma Analysis_save_patients now self st :
  patients (snd (Analysis_save now self st)) = patients st.
Proof.
  unfold Analysis_save. fold (stamp now self).
  unfold Model_save_analysis, handle_analysis_status_change, bind, ret,
    send_completion_email, raise.
  destruct (a_pk (stamp now self)) as [pk|] eqn:Hpk; [|now rewrite Hpk].
  destruct (find_analysis pk st) as [old|] eqn:Hold.
  - destruct (_ && _); [reflexivity|].
    rewrite Hpk, Hold. reflexivity.
  - rewrite Hpk, Hold. reflexivity.
Qed.

Lemma Patient_save_new_cases today self st :
  p_pk self = None ->
  patients (snd (Patient_save today self st)) = patients st
  \/ exists row,
       p_created_by row = p_created_by self
       /\ patients (snd (Patient_save today self st))
          = (patients st ++ [row])%list.
Proof.
  intros Hpk. unfold Patient_save, Model_save_patient, raise. rewrite Hpk.
  destruct (truthy (p_birth_date self));
    [destruct (pyval_gt_date (p_birth_date self) today) as [[|]|]|];
    try (now left);
    destruct (p_birth_date self); try (now left);
    (right; eexists; split; [|reflexivity]; reflexivity).
Qed.

Lemma Patient_save_owned today self uid st :
  p_pk self = None ->
  (uid <> p_created_by self ->
   filter (created_by_is uid) (patients (snd (Patient_save today self st)))
   = filter (created_by_is uid) (patients st))
  /\ (List.length
        (filter (created_by_is (p_created_by self))
                (patients (snd (Patient_save today self st))))
      <= S (List.length
              (filter (created_by_is (p_created_by self)) (patients st))))%nat.
Proof.
  intros Hpk.
  destruct (Patient_save_new_cases today self st Hpk) as [E | (row & Hrow & E)];
    rewrite E.
  - split; [reflexivity|lia].
  - split.
    + intros Hne.
      assert (H1 : created_by_is uid row = false)
        by (unfold created_by_is; rewrite Hrow; apply Nat.eqb_neq; congruence).
      rewrite filter_app. simpl. rewrite H1. apply app_nil_r.
    + rewrite filter_app, length_app. simpl.
      destruct (created_by_is _ row); simpl; lia.
Qed.

Lemma provision_count (run : Store -> Store) user st :
  (run st = st
   \/ (filter (created_by_is (u_pk user)) (patients st) = []
       /\ exists today self,
            p_pk self = None /\ p_created_by self = u_pk user
            /\ run st = snd (Patient_save today self st))) ->
  forall uid,
    (List.length (filter (created_by_is uid) (patients (run st)))
     <= Nat.max 1 (List.length (filter (created_by_is uid) (patients st))))%nat.
Proof.
  intros [E | (Hnone & today & self & Hpk & Hown & E)] uid; rewrite E; [lia|].
  destruct (Patient_save_owned today self uid st Hpk) as [Hother Hmine].
  destruct (Nat.eq_dec uid (p_created_by self)) as [->|Hne].
  - rewrite Hown in *. rewrite Hnone in Hmine. simpl in Hmine. lia.
  - rewrite (Hother Hne). lia.
Qed.

Lemma get_or_create_count today user st uid :
  (List.length
     (filter (created_by_is uid)
        (patients (snd (Patient_objects_get_or_create today user st))))
   <= Nat.max 1 (List.length (filter (created_by_is uid) (patients st))))%nat.
Proof.
  apply (provision_count
           (fun s => snd (Patient_objects_get_or_create today user s)) user st).
  unfold Patient_objects_get_or_create, Patient_objects_get.
  destruct (filter _ (patients st)) as [|p [|p' rest]] eqn:Hf;
    [|now left|now left].
  right. split; [reflexivity|].
  unfold Patient_objects_create.
  exists today,
    (mkPatient None (or_str (u_last_name user) "User")
       (or_str (u_first_name user) "Unknown")
       (or_date (u_birth_date user) "2000-01-01")
       (or_str (u_gender user) "O") None None (u_pk user)).
  split; [reflexivity|]. split; [reflexivity|].
  unfold bind, ret. now destruct (Patient_save today _ st) as [[x|e] s'].
Qed.

Lemma get_or_provision_count today user st uid :
  (List.length
     (filter (created_by_is uid)
        (patients (snd (get_or_provision today user st))))
   <= Nat.max 1 (List.length (filter (created_by_is uid) (patients st))))%nat.
Proof.
  apply (provision_count (fun s => snd (get_or_provision today user s)) user st).
  unfold get_or_provision, Patient_objects_get.
  destruct (filter _ (patients st)) as [|p [|p' rest]] eqn:Hf;
    [|now left|now left].
  right. split; [reflexivity|].
  unfold Patient_objects_create.
  exists today,
    (mkPatient None (or_str (u_last_name user) "User")
       (or_str (u_first_name user) "Unknown")
       (or_date (u_birth_date user) "2000-01-01")
       (or_str (u_gender user) "O") (u_phone user) (Some (u_email user))
       (u_pk user)).
  split; [reflexivity|]. split; reflexivity.
Qed.

Lemma AnalysisForm_init_count today user st uid :
  (List.length
     (filter (created_by_is uid)
        (patients (snd (AnalysisForm_init today user st))))
   <= Nat.max 1 (List.length (filter (created_by_is uid) (patients st))))%nat.
Proof.
  unfold AnalysisForm_init.
  destruct (is_regular_user user); [|cbn [snd]; lia].
  pose proof (get_or_provision_count today user st uid) as H.
  destruct (get_or_provision today user st) as [[p|e] st']; exact H.
Qed.

(** X7.  Creating an analysis never gives an account a second patient.
    Through the API and through the HTML view, for every actor and every
    input, also when the request fails: afterwards each account owns at
    most as many patients as before, or one if it owned none. *)
Theorem creating_an_analysis_never_duplicates_patients today now r st uid :
  (forall data,
      (List.length
         (filter (created_by_is uid)
            (patients (snd (AnalysisViewSet_create today now r data st))))
       <= Nat.max 1 (List.length (filter (created_by_is uid) (patients st))))%nat)
  /\ (forall post,
        (List.length
           (filter (created_by_is uid)
              (patients (snd (create_analysis today now r post st))))
         <= Nat.max 1
              (List.length (filter (created_by_is uid) (patients st))))%nat).
Proof.
  split.
  - intros data. unfold AnalysisViewSet_create, ret.
    destruct r as [|user]; [cbn [snd]; lia|].
    destruct (AnalysisViewSet_get_permissions act_create (Account user));
      [|cbn [snd]; lia].
    unfold bind at 1, AnalysisViewSet_perform_create.
    destruct (is_regular_user user).
    + unfold bind.
      pose proof (get_or_create_count today user st uid) as H.
      destruct (Patient_objects_get_or_create today user st) as [[pc|e] st1];
        [|exact H].
      cbn [snd] in H.
      pose proof (Analysis_save_patients now
                    (with_patient (pk_of (p_pk (fst pc))) data) st1) as Hp.
      destruct (Analysis_save now _ st1) as [[x|e] st2]; cbn [snd] in *;
        now rewrite Hp.
    + pose proof (Analysis_save_patients now data st) as Hp.
      destruct (Analysis_save now data st) as [[x|e] st2]; cbn [snd] in *;
        rewrite Hp; lia.
  - intros post. unfold create_analysis, ret.
    destruct r as [|user]; [cbn [snd]; lia|].
    destruct (negb _); [cbn [snd]; lia|].
    unfold bind at 1.
    assert (H1 : exists st1,
               snd ((if is_regular_user user
                     then _ <- get_or_provision today user;;
                          (fun s => (Ok tt, s))
                     else (fun s => (Ok tt, s))) st) = st1
               /\ (List.length (filter (created_by_is uid) (patients st1))
                   <= Nat.max 1
                        (List.length
                           (filter (created_by_is uid) (patients st))))%nat).
    { eexists. split; [reflexivity|].
      destruct (is_regular_user user); [|cbn [snd]; lia].
      unfold bind.
      pose proof (get_or_provision_count today user st uid) as H.
      destruct (get_or_provision today user st) as [[p|e] s']; exact H. }
    destruct H1 as (st1 & E1 & Hle1).
    destruct ((if is_regular_user user
               then _ <- get_or_provision today user;; (fun s => (Ok tt, s))
               else (fun s => (Ok tt, s))) st) as [[[]|e] s1];
      cbn [snd] in E1; subst s1; [|exact Hle1].
    unfold bind at 1.
    pose proof (AnalysisForm_init_count today user st1 uid) as H2.
    destruct (AnalysisForm_init today user st1) as [[choices|e] st2];
      cbn [snd] in H2; [|cbn [snd]; lia].
    assert (Hle2 : (List.length (filter (created_by_is uid) (patients st2))
                    <= Nat.max 1
                         (List.length
                            (filter (created_by_is uid) (patients st))))%nat)
      by lia.
    destruct post as [[[patient type] notes]|]; [|exact Hle2].
    destruct (existsb _ choices); [|exact Hle2].
    unfold bind.
    pose proof (Analysis_save_patients now (new_analysis patient type notes)
                  st2) as Hp.
    destruct (Analysis_save now _ st2) as [[x|e] st3]; cbn [snd] in *;
      now rewrite Hp.
Qed.

(** X8.  A regular user who owns more than one patient cannot create an
    analysis: the lookup of "the" patient raises [MultipleObjectsReturned],
    on the API and on the HTML view alike, and nothing is stored. *)
Theorem several_patients_block_analysis_creation
  today now user p1 p2 rest st :
  is_regular_user user = true ->
  filter (created_by_is (u_pk user)) (patients st) = p1 :: p2 :: rest ->
  (forall data,
      AnalysisViewSet_create today now (Account user) data st
      = (Raise MultipleObjectsReturned, st))
  /\ (forall post,
        create_analysis today now (Account user) post st
        = (Raise MultipleObjectsReturned, st)).
Proof.
  intros Hreg Hmany. split.
  - intros data.
    unfold AnalysisViewSet_create, AnalysisViewSet_get_permissions,
      IsRegularUser, AnalysisViewSet_perform_create.
    rewrite Hreg, orb_true_r.
    unfold bind, Patient_objects_get_or_create, Patient_objects_get.
    now rewrite Hmany.
  - intros post. unfold create_analysis.
    rewrite Hreg, orb_true_r. change (negb true) with false. cbv iota.
    unfold bind, get_or_provision, Patient_objects_get.
    now rewrite Hmany.
Qed.

Lemma several_patients_witness :
  is_regular_user demo_user = true
  /\ create_analysis demo_today 100 (Account demo_user) None
       demo_crowded_store
     = (Raise MultipleObjectsReturned, demo_crowded_store).
Proof.
  split; [reflexivity|].
  exact (proj2 (several_patients_block_analysis_creation demo_today 100
                  demo_user demo_own_patient demo_second_patient []
                  demo_crowded_store eq_refl eq_refl) None).
Defined.

(** ** Editing a patient *)

(** X9.  [edit_patient] never raises, for no actor and no input; it never
    changes a key or a created_by, nor the accounts, the analyses or the
    outbox; and when it does change the patients, the submitted birth date
    is not after today and not more than 150 years (of 365.25 days) back. *)
Theorem edit_patient_is_safe today r patient_id post st :
  exists html st',
    edit_patient today r patient_id post st = (Ok html, st')
    /\ map p_pk (patients st') = map p_pk (patients st)
    /\ map p_created_by (patients st') = map p_created_by (patients st)
    /\ users st' = users st
    /\ analyses st' = analyses st
    /\ outbox st' = outbox st
    /\ (patients st' <> patients st ->
        exists d,
          post = Some d
          /\ date_gtb (d_birth_date d) today = false
          /\ 100 * days_between today (d_birth_date d) <= 150 * 36525).
Proof.
  assert (Hsame : forall html : Html,
            exists html' st',
              (Ok html, st) = (Ok html', st')
              /\ map p_pk (patients st') = map p_pk (patients st)
              /\ map p_created_by (patients st')
                 = map p_created_by (patients st)
              /\ users st' = users st
              /\ analyses st' = analyses st
              /\ outbox st' = outbox st
              /\ (patients st' <> patients st ->
                  exists d,
                    post = Some d
                    /\ date_gtb (d_birth_date d) today = false
                    /\ 100 * days_between today (d_birth_date d)
                       <= 150 * 36525)).
  { intros html. exists html, st. repeat split; auto. congruence. }
  unfold edit_patient, ret.
  destruct r as [|user]; [apply Hsame|].
  destruct (find_patient patient_id st) as [patient|] eqn:Hfind;
    [|apply Hsame].
  destruct (negb _); [apply Hsame|].
  destruct post as [d|]; [|apply Hsame].
  unfold PatientForm_is_valid, PatientForm_clean_birth_date.
  destruct (date_gtb (d_birth_date d) today) eqn:Hfut; [apply Hsame|].
  destruct (100 * days_between today (d_birth_date d) >? 150 * 36525) eqn:Hage;
    [apply Hsame|].
  cbn [is_ok]. unfold bind, Patient_save, construct_instance.
  cbn [p_birth_date truthy pyval_gt_date]. rewrite Hfut.
  unfold Model_save_patient. cbn [p_birth_date p_pk].
  rewrite (find_patient_has_pk patient_id st patient Hfind), Hfind.
  do 2 eexists. split; [reflexivity|].
  cbn [patients users analyses outbox set_patients].
  split.
  { apply (map_replace_row p_pk _ _ patient); [exact Hfind|].
    simpl. symmetry. exact (find_patient_has_pk patient_id st patient Hfind). }
  split.
  { apply (map_replace_row p_created_by _ _ patient); [exact Hfind|].
    reflexivity. }
  repeat split.
  intros _. exists d. split; [reflexivity|]. split; [exact Hfut|].
  rewrite Z.gtb_ltb in Hage. now apply Z.ltb_ge in Hage.
Qed.

(** ** Accounts *)

Lemma existsb_email_false email us :
  existsb (fun u => String.eqb (u_email u) email) us = false ->
  ~ In email (map u_email us).
Proof.
  intros H Hin. apply in_map_iff in Hin as (u & Hu & Hin).
  assert (existsb (fun u => String.eqb (u_email u) email) us = true).
  { apply existsb_exists. exists u. split; [exact Hin|].
    now apply String.eqb_eq. }
  congruence.
Qed.

Lemma NoDup_snoc {A} (l : list A) (x : A) :
  NoDup l -> ~ In x l -> NoDup (l ++ [x]).
Proof.
  intros Hl Hx. apply NoDup_app; [exact Hl|repeat constructor; auto|].
  intros y Hy [<-|[]]. contradiction.
Qed.

Lemma User_save_cases self st :
  User_save self st = (Raise IntegrityError, st)
  \/ exists row,
       User_save self st = (Ok row, set_users (users st ++ [row]) st)
       /\ ~ In (u_email self) (map u_email (users st))
       /\ u_email row = u_email self
       /\ u_pk row = next_pk (map u_pk (users st))
       /\ u_groups row = []
       /\ u_is_superuser row = u_is_superuser self
       /\ u_birth_date row = u_birth_date self
       /\ u_last_name row = u_last_name self
       /\ u_first_name row = u_first_name self
       /\ u_gender row = u_gender self.
Proof.
  unfold User_save.
  destruct (existsb _ (users st)) eqn:Hex; [now left|right].
  apply existsb_email_false in Hex.
  unfold is_administrator, is_moderator, in_group. simpl.
  destruct (u_is_superuser self) eqn:Hs; simpl.
  - eexists. split; [reflexivity|]. simpl. rewrite Hs. repeat split; auto.
  - eexists. split; [reflexivity|]. simpl. repeat split; auto.
Qed.

Lemma add_to_users_group_emails user st0 st :
  users st = (users st0 ++ [user])%list ->
  u_pk user = next_pk (map u_pk (users st0)) ->
  exists user',
    fst (add_to_users_group user st) = Ok user'
    /\ users (snd (add_to_users_group user st)) = (users st0 ++ [user'])%list
    /\ patients (snd (add_to_users_group user st)) = patients st
    /\ u_email user' = u_email user
    /\ u_pk user' = u_pk user
    /\ u_is_superuser user' = u_is_superuser user
    /\ u_birth_date user' = u_birth_date user
    /\ (u_groups user' = u_groups user
        \/ u_groups user' = ("users" :: u_groups user)%list)
    /\ outbox (snd (add_to_users_group user st)) = outbox st.
Proof.
  intros Hus Hpk. unfold add_to_users_group.
  destruct (existsb (String.eqb "users") (group_names st)).
  - eexists. split; [reflexivity|]. simpl. rewrite Hus.
    rewrite replace_row_last.
    + repeat split; auto.
    + intros r Hin. apply Nat.eqb_neq. rewrite Hpk.
      pose proof (next_pk_fresh (map u_pk (users st0)) (u_pk r)
                    (in_map u_pk _ _ Hin)). lia.
    + apply Nat.eqb_refl.
  - exists user. simpl. repeat split; auto.
Qed.

Lemma PatientWithUserForm_save_users today d created_by st :
  NoDup (map u_email (users st)) ->
  NoDup (map u_email
           (users (snd (PatientWithUserForm_save today d created_by st))))
  /\ exists added,
       users (snd (PatientWithUserForm_save today d created_by st))
       = (users st ++ added)%list.
Proof.
  intros Hnd.
  unfold PatientWithUserForm_save, User_objects_create_user, bind.
  destruct (User_save_cases
              (mkUser O (w_email d) (d_last_name (w_patient d))
                 (d_first_name (w_patient d))
                 (Some (d_birth_date (w_patient d))) (d_gender (w_patient d))
                 (d_phone (w_patient d)) false []) st)
    as [E | (row & E & Hfree & Hemail & Hpk & _)]; rewrite E.
  - split; [exact Hnd|]. exists []. simpl. now rewrite app_nil_r.
  - destruct (add_to_users_group_emails row st
                (set_users (users st ++ [row]) st) eq_refl Hpk)
      as (user' & E1 & E2 & _ & Hemail' & _).
    destruct (add_to_users_group row (set_users (users st ++ [row]) st))
      as [[x|e] st2]; simpl in E1, E2; [|discriminate].
    injection E1 as ->.
    match goal with |- context [Patient_save today ?p st2] =>
      pose proof (Patient_save_frame today p st2) as (_ & _ & Hus);
      destruct (Patient_save today p st2) as [[y|e] st3]
    end; simpl in Hus |- *; rewrite Hus, E2;
      (split; [|now exists [user']]);
      rewrite map_app; simpl; (apply NoDup_snoc; [exact Hnd|]);
      rewrite Hemail', Hemail; exact Hfree.
Qed.

(** X10.  [create_patient] keeps the e-mails of the accounts unique:
    whoever calls it with whatever form, also when saving the patient
    fails, a store whose accounts have pairwise different e-mails stays
    such a store, and the accounts that were there are still there,
    unchanged and in place. *)
Theorem create_patient_keeps_emails_unique today r post st :
  NoDup (map u_email (users st)) ->
  NoDup (map u_email (users (snd (create_patient today r post st))))
  /\ exists added,
       users (snd (create_patient today r post st))
       = (users st ++ added)%list.
Proof.
  intros Hnd.
  assert (Hsame : NoDup (map u_email (users st))
                  /\ exists added, users st = (users st ++ added)%list).
  { split; [exact Hnd|]. exists []. now rewrite app_nil_r. }
  unfold create_patient, ret.
  destruct r as [|user]; [exact Hsame|].
  destruct (is_regular_user user); [exact Hsame|].
  destruct (is_moderator user) eqn:Hm; [|exact Hsame].
  change (negb true) with false. cbv iota.
  destruct post as [d|]; [|exact Hsame].
  destruct (PatientWithUserForm_is_valid d st); [|exact Hsame].
  pose proof (PatientWithUserForm_save_users today d (Some user) st Hnd) as H.
  unfold bind.
  destruct (PatientWithUserForm_save today d (Some user) st) as [[p|e] st'];
    exact H.
Qed.

Lemma create_patient_keeps_emails_unique_witness :
  NoDup (map u_email (users demo_store))
  /\ NoDup (map u_email
              (users (snd (create_patient demo_today (Account demo_moderator)
                             (Some demo_form) demo_store)))).
Proof.
  assert (H : NoDup (map u_email (users demo_store))).
  { simpl. repeat constructor; simpl; intuition discriminate. }
  split; [exact H|].
  exact (proj1 (create_patient_keeps_emails_unique demo_today
                  (Account demo_moderator) (Some demo_form) demo_store H)).
Defined.

(** X11.  [User.save] never changes the superuser flag of a new account.
    The account is stored under a fresh key and in no group, and the
    branch that clears the flag only runs when the flag is already clear:
    an account created with the flag is an administrator afterwards.  An
    account whose e-mail is taken is refused and nothing is stored. *)
Theorem User_save_keeps_superuser_flag self st :
  (In (u_email self) (map u_email (users st)) ->
   User_save self st = (Raise IntegrityError, st))
  /\ (~ In (u_email self) (map u_email (users st)) ->
      exists row,
        User_save self st = (Ok row, set_users (users st ++ [row]) st)
        /\ u_is_superuser row = u_is_superuser self
        /\ is_administrator row = u_is_superuser self
        /\ is_moderator row = false
        /\ u_email row = u_email self
        /\ forall u, In u (users st) -> u_pk u <> u_pk row).
Proof.
  split.
  - intros Hin. unfold User_save.
    apply in_map_iff in Hin as (u & Hu & Hin).
    assert (H : existsb (fun x => String.eqb (u_email x) (u_email self))
                        (users st) = true).
    { apply existsb_exists. exists u. split; [exact Hin|].
      now apply String.eqb_eq. }
    now rewrite H.
  - intros Hfree.
    destruct (User_save_cases self st)
      as [E | (row & E & _ & Hemail & Hpk & Hg & Hs & _)].
    + exfalso. unfold User_save in E.
      destruct (existsb _ (users st)) eqn:Hex; [|discriminate].
      apply existsb_exists in Hex as (u & Hin & Hu).
      apply String.eqb_eq in Hu. apply Hfree. rewrite <- Hu.
      now apply in_map.
    + exists row. split; [exact E|]. split; [exact Hs|].
      unfold is_administrator, is_moderator, in_group. rewrite Hg, Hs.
      split; [reflexivity|]. split; [reflexivity|]. split; [exact Hemail|].
      intros u Hin. rewrite Hpk.
      pose proof (next_pk_fresh (map u_pk (users st)) (u_pk u)
                    (in_map u_pk _ _ Hin)). lia.
Qed.

Lemma User_save_keeps_superuser_flag_witness :
  exists row,
    User_save demo_root (set_users [demo_moderator] demo_store)
    = (Ok row,
       set_users ([demo_moderator] ++ [row])
                 (set_users [demo_moderator] demo_store))
    /\ is_administrator row = true.
Proof.
  destruct (User_save_keeps_superuser_flag demo_root
              (set_users [demo_moderator] demo_store)) as [_ H].
  destruct H as (row & E & _ & Hadm & _).
  - simpl. intuition discriminate.
  - exists row. split; [exact E|exact Hadm].
Defined.

(** ** Registration *)

Ltac order_cases :=
  repeat match goal with
         | H : context [?a <? ?b] |- _ => destruct (Z.ltb_spec a b)
         | H : context [?a =? ?b] |- _ => destruct (Z.eqb_spec a b)
         | |- context [?a <? ?b] => destruct (Z.ltb_spec a b)
         | |- context [?a =? ?b] => destruct (Z.eqb_spec a b)
         end;
  simpl in *; try discriminate; try reflexivity; try lia.

Lemma date_not_after_later b t t' :
  date_gtb b t = false ->
  date_leb t t' = true ->
  date_gtb b t' = false.
Proof.
  unfold date_gtb, date_leb, date_ltb. intros H1 H2.
  apply negb_true_iff in H2. order_cases.
Qed.

Lemma add_to_users_group_analyses user st :
  analyses (snd (add_to_users_group user st)) = analyses st.
Proof.
  unfold add_to_users_group.
  now destruct (existsb (String.eqb "users") (group_names st)).
Qed.

(** X12.  An account made by the registration form, with a birth date that
    the form accepted on the day of registration and an e-mail that was
    free, is a regular user without the superuser flag; on any later day
    its first analysis through the API, whatever the validated data of the
    serializer, provisions exactly one patient for it, with the account's
    own birth date, and appends one analysis to the table: the answered
    one, filed under that patient whatever patient the data named, with
    the status of the data.  No message is sent. *)
Theorem registered_account_gets_its_patient
  today today' now d st data :
  a_pk data = None ->
  PatientRegistrationForm_clean_birth_date today (Some (g_birth_date d))
  = Ok (Some (g_birth_date d)) ->
  date_leb today today' = true ->
  ~ In (g_email d) (map u_email (users st)) ->
  (forall p, In p (patients st) -> In (p_created_by p) (map u_pk (users st))) ->
  exists account st1,
    PatientRegistrationForm_save d st = (Ok account, st1)
    /\ is_regular_user account = true
    /\ u_is_superuser account = false
    /\ u_email account = g_email d
    /\ patients st1 = patients st
    /\ exists p a st2,
         AnalysisViewSet_create today' now (Account account) data st1
         = (Ok (HTTP_201_CREATED a), st2)
         /\ patients st2 = (patients st ++ [p])%list
         /\ filter (created_by_is (u_pk account)) (patients st2) = [p]
         /\ p_birth_date p = PDate (g_birth_date d)
         /\ analyses st2 = (analyses st ++ [a])%list
         /\ a_patient a = pk_of (p_pk p)
         /\ a_status a = a_status data
         /\ outbox st2 = outbox st.
Proof.
  intros Hdata Hclean Hlater Hfree Hfk.
  assert (Hfut : date_gtb (g_birth_date d) today = false).
  { unfold PatientRegistrationForm_clean_birth_date in Hclean.
    now destruct (date_gtb (g_birth_date d) today). }
  pose proof (date_not_after_later _ _ _ Hfut Hlater) as Hfut'.
  unfold PatientRegistrationForm_save, bind.
  match goal with |- context [User_save ?u st] =>
    destruct (User_save_cases u st)
      as [E | (row & E & _ & Hemail & Hpk & Hg & Hs & Hb & _)]
  end.
  { exfalso. unfold User_save in E.
    destruct (existsb _ (users st)) eqn:Hex; [|discriminate].
    apply existsb_exists in Hex as (u & Hin & Hu).
    apply String.eqb_eq in Hu. apply Hfree. simpl in Hu. rewrite <- Hu.
    now apply in_map. }
  rewrite E. simpl in Hemail, Hs, Hb.
  destruct (add_to_users_group_emails row st
              (set_users (users st ++ [row]) st) eq_refl Hpk)
    as (account & E1 & E2 & E3 & Hemail' & Hpk' & Hs' & Hb' & Hg' & Hout).
  pose proof (add_to_users_group_analyses row
                (set_users (users st ++ [row]) st)) as Han.
  destruct (add_to_users_group row (set_users (users st ++ [row]) st))
    as [[x|e] st1]; simpl in E1, E2, E3, Hout, Han; [|discriminate].
  injection E1 as ->.
  assert (Hreg : is_regular_user account = true).
  { unfold is_regular_user, is_administrator, is_moderator, in_group.
    rewrite Hs', Hs. rewrite Hg in Hg'.
    destruct Hg' as [-> | ->]; reflexivity. }
  assert (Hnone : filter (created_by_is (u_pk account)) (patients st1) = []).
  { rewrite E3. apply filter_none. intros p Hin. apply Nat.eqb_neq.
    rewrite Hpk', Hpk.
    pose proof (next_pk_fresh _ _ (Hfk p Hin)). lia. }
  exists account, st1. split; [reflexivity|]. split; [exact Hreg|].
  split; [now rewrite Hs', Hs|]. split; [now rewrite Hemail', Hemail|].
  split; [exact E3|].
  assert (Hbd : u_birth_date account = Some (g_birth_date d))
    by now rewrite Hb', Hb.
  destruct (get_or_create_creates today' account (g_birth_date d) st1
              Hbd Hfut' Hnone) as [Hrun Hone].
  cbv zeta in Hrun, Hone.
  unfold AnalysisViewSet_create, AnalysisViewSet_get_permissions,
    IsRegularUser, AnalysisViewSet_perform_create.
  rewrite Hreg, orb_true_r. unfold bind at 1 2. rewrite Hrun.
  cbn [fst]. rewrite Analysis_save_new by exact Hdata. cbv zeta.
  unfold ret. do 3 eexists.
  split; [reflexivity|].
  cbn [patients analyses set_analyses set_patients outbox].
  rewrite E3 in Hone |- *. rewrite Han.
  split; [reflexivity|]. split; [exact Hone|].
  split; [reflexivity|]. split; [reflexivity|].
  cbn [a_patient a_status with_pk]. rewrite stamp_patient, stamp_status.
  split; [reflexivity|]. split; [reflexivity|].
  exact Hout.
Qed.

Lemma registered_account_witness :
  PatientRegistrationForm_clean_birth_date demo_today
    (Some (g_birth_date demo_registration))
  = Ok (Some (g_birth_date demo_registration))
  /\ exists account st1,
       PatientRegistrationForm_save demo_registration demo_store
       = (Ok account, st1)
       /\ is_regular_user account = true.
Proof.
  split; [reflexivity|].
  destruct (registered_account_gets_its_patient demo_today (mkdate 2025 7 1)
              100 demo_registration demo_store
              (with_status "cancelled" (new_analysis 1 1 "")))
    as (account & st1 & H1 & H2 & _).
  - reflexivity.
  - reflexivity.
  - reflexivity.
  - simpl. intuition discriminate.
  - intros p [<-|[]]. simpl. tauto.
  - exists account, st1. split; assumption.
Defined.

(** ** Phone numbers *)

Lemma cleaned_phone_length phone :
  (String.length (cleaned_phone phone) <= String.length phone)%nat.
Proof.
  induction phone as [|c rest IH]; simpl; [lia|].
  destruct (digit_or_plus c); simpl; lia.
Qed.

Lemma cleaned_phone_all phone :
  all_chars digit_or_plus phone = true -> cleaned_phone phone = phone.
Proof.
  induction phone as [|c rest IH]; simpl; [reflexivity|].
  intros H. apply andb_prop in H as [Hc Hrest].
  rewrite Hc. f_equal. now apply IH.
Qed.

(** X13.  [clean_phone] never rewrites the phone number: what it accepts
    it returns as submitted.  No number and the empty number are accepted.
    A non-empty number shorter than ten characters is always refused.  A
    number of at least ten characters that are all digits or plus signs is
    accepted: plus signs count like digits, ten of them pass. *)
Theorem clean_phone_counts_digits_and_plus phone :
  (forall out, PatientForm_clean_phone phone = Ok out -> out = phone)
  /\ PatientForm_clean_phone None = Ok None
  /\ PatientForm_clean_phone (Some "") = Ok (Some "")
  /\ (forall s, phone = Some s -> s <> "" ->
                (String.length s < 10)%nat ->
                PatientForm_clean_phone phone = Raise ValidationError)
  /\ (forall s, phone = Some s ->
                all_chars digit_or_plus s = true ->
                (10 <= String.length s)%nat ->
                PatientForm_clean_phone phone = Ok phone).
Proof.
  split; [|split; [reflexivity|split; [reflexivity|split]]].
  - intros out. unfold PatientForm_clean_phone.
    destruct phone as [p|]; [|congruence].
    destruct (_ && _); congruence.
  - intros s -> Hne Hlen. unfold PatientForm_clean_phone.
    apply String.eqb_neq in Hne. rewrite Hne. simpl negb.
    pose proof (cleaned_phone_length s) as H.
    assert (E : (String.length (cleaned_phone s) <? 10)%nat = true)
      by (apply Nat.ltb_lt; lia).
    now rewrite E.
  - intros s -> Hall Hlen. unfold PatientForm_clean_phone.
    rewrite (cleaned_phone_all s Hall).
    assert (E : (String.length s <? 10)%nat = false)
      by (apply Nat.ltb_ge; lia).
    now rewrite E, andb_false_r.
Qed.

Lemma clean_phone_witness :
  PatientForm_clean_phone (Some "++++++++++") = Ok (Some "++++++++++")
  /\ PatientForm_clean_phone (Some "123-45-67") = Raise ValidationError.
Proof.
  destruct (clean_phone_counts_digits_and_plus (Some "++++++++++"))
    as (_ & _ & _ & _ & Hok).
  destruct (clean_phone_counts_digits_and_plus (Some "123-45-67"))
    as (_ & _ & _ & Hshort & _).
  split.
  - apply (Hok "++++++++++"); [reflexivity|reflexivity|simpl; lia].
  - apply (Hshort "123-45-67"); [reflexivity|discriminate|simpl; lia].
Defined.

(** ** Object permissions and the update of a patient *)

(** X14.  The object permission of the update actions is implied by the
    query set: every patient and every analysis that an authenticated
    actor can reach through [get_queryset] passes
    [has_object_permission].  Hence the update of a patient never answers
    403 and never raises the [AttributeError] that the permission class
    has in store for the anonymous user: the anonymous user gets 404. *)
Theorem object_permission_implied_by_queryset today r pk d st :
  (forall u p,
      r = Account u ->
      In p (PatientViewSet_get_queryset r st) ->
      has_object_permission_patient r p = Ok true)
  /\ (forall u a,
        r = Account u ->
        In a (AnalysisViewSet_get_queryset r st) ->
        has_object_permission_analysis st r a = Ok true)
  /\ fst (PatientViewSet_update today r pk d st) <> Ok HTTP_403_FORBIDDEN
  /\ fst (PatientViewSet_update today r pk d st) <> Raise AttributeError
  /\ (r = AnonymousUser ->
      PatientViewSet_update today r pk d st = (Ok HTTP_404_NOT_FOUND, st)).
Proof.
  assert (Hpat : forall u p,
             In p (PatientViewSet_get_queryset (Account u) st) ->
             has_object_permission_patient (Account u) p = Ok true).
  { intros u p Hin. unfold PatientViewSet_get_queryset in Hin.
    unfold has_object_permission_patient.
    destruct (is_administrator u) eqn:Ha; [reflexivity|].
    destruct (is_moderator u) eqn:Hm; [reflexivity|]. simpl.
    unfold is_regular_user in Hin. rewrite Ha, Hm in Hin. simpl in Hin.
    apply filter_In in Hin as [_ Hin]. now rewrite Hin. }
  split; [intros u p ->; apply Hpat|].
  split.
  { intros u a -> Hin. unfold AnalysisViewSet_get_queryset in Hin.
    unfold has_object_permission_analysis.
    destruct (is_administrator u) eqn:Ha; [reflexivity|].
    destruct (is_moderator u) eqn:Hm; [reflexivity|]. simpl.
    unfold is_regular_user in Hin. rewrite Ha, Hm in Hin. simpl in Hin.
    apply filter_In in Hin as [_ Hin]. unfold patient_created_by_is in Hin.
    destruct (find_patient (a_patient a) st); [now rewrite Hin|discriminate]. }
  unfold PatientViewSet_update, PatientViewSet_get_permissions.
  change (negb true) with false. cbv beta iota.
  destruct r as [|u].
  - simpl. repeat split; discriminate.
  - destruct (PatientViewSet_get_object (Account u) pk st)
      as [p|] eqn:Hfind; unfold PatientViewSet_get_object in Hfind.
    + apply find_some in Hfind as [Hin _].
      rewrite (Hpat u p Hin). unfold bind, Patient_save, construct_instance.
      cbn [p_birth_date truthy pyval_gt_date].
      destruct (date_gtb (d_birth_date d) today); unfold raise;
        [simpl; repeat split; discriminate|].
      unfold Model_save_patient. cbn [p_birth_date p_pk].
      destruct (p_pk p); [destruct (find_patient _ st)|];
        simpl; repeat split; discriminate.
    + simpl. repeat split; discriminate.
Qed.

Lemma object_permission_witness :
  has_object_permission_patient (Account demo_user) demo_own_patient
  = Ok true
  /\ PatientViewSet_update demo_today AnonymousUser 1 (w_patient demo_form)
       demo_shared_store
     = (Ok HTTP_404_NOT_FOUND, demo_shared_store).
Proof.
  destruct (object_permission_implied_by_queryset demo_today
              (Account demo_user) 2 (w_patient demo_form) demo_shared_store)
    as (H & _).
  destruct (object_permission_implied_by_queryset demo_today
              AnonymousUser 1 (w_patient demo_form) demo_shared_store)
    as (_ & _ & _ & _ & Hanon).
  split.
  - apply (H demo_user); [reflexivity|]. simpl. tauto.
  - apply Hanon. reflexivity.
Defined.

Lemma replace_row_keeps {A} (hit : A -> bool) (new : A) (rows : list A) x :
  In x rows -> hit x = false -> In x (replace_row hit new rows).
Proof.
  intros Hin Hx. induction rows as [|r rest IH]; simpl in *; [tauto|].
  destruct Hin as [->|Hin].
  - rewrite Hx. now left.
  - destruct (hit r); [now right|]. right. now apply IH.
Qed.

(** X15.  With unique keys in the patient table, the update action lets a
    regular user write to their own patients only: every patient created
    by someone else is in the table afterwards exactly as before, whatever
    key and data the request names. *)
Theorem update_leaves_foreign_patients today u pk d st :
  NoDup (map p_pk (patients st)) ->
  is_regular_user u = true ->
  forall p,
    In p (patients st) ->
    p_created_by p <> u_pk u ->
    In p (patients (snd (PatientViewSet_update today (Account u) pk d st))).
Proof.
  intros Hnd Hreg p Hin Hforeign.
  assert (Hroles : is_administrator u = false /\ is_moderator u = false).
  { unfold is_regular_user in Hreg. apply negb_true_iff in Hreg.
    now apply orb_false_iff in Hreg. }
  destruct Hroles as [Hadm Hmod].
  unfold PatientViewSet_update, PatientViewSet_get_permissions.
  change (negb true) with false. cbv beta iota.
  unfold PatientViewSet_get_object, PatientViewSet_get_queryset.
  rewrite Hadm, Hmod, Hreg.
  destruct (find _ (filter (created_by_is (u_pk u)) (patients st)))
    as [q|] eqn:Hfind; [|exact Hin].
  apply find_filter_some in Hfind as (Hq & Hhit & Hown).
  unfold has_object_permission_patient. rewrite Hadm, Hmod. simpl.
  rewrite Hown.
  assert (Hqpk : p_pk q = Some pk).
  { destruct (p_pk q) as [k|]; simpl in Hhit; [|discriminate].
    apply Nat.eqb_eq in Hhit. now subst. }
  unfold bind, Patient_save, construct_instance.
  cbn [p_birth_date truthy pyval_gt_date].
  destruct (date_gtb (d_birth_date d) today); [exact Hin|].
  unfold Model_save_patient. cbn [p_birth_date p_pk]. rewrite Hqpk.
  destruct (find_patient pk st); simpl.
  - apply replace_row_keeps; [exact Hin|].
    destruct (p_pk p) as [k|] eqn:Hk; [|reflexivity]. simpl.
    apply Nat.eqb_neq. intros ->.
    assert (p = q) by (apply (NoDup_map_eq p_pk (patients st)); congruence).
    subst q. apply Nat.eqb_eq in Hown. contradiction.
  - apply in_or_app. now left.
Qed.

Lemma update_leaves_foreign_patients_witness :
  In demo_patient
     (patients (snd (PatientViewSet_update demo_today (Account demo_user) 1
                       (w_patient demo_form) demo_shared_store))).
Proof.
  apply (update_leaves_foreign_patients demo_today demo_user 1
           (w_patient demo_form) demo_shared_store).
  - simpl. repeat constructor; simpl; intuition discriminate.
  - reflexivity.
  - simpl. tauto.
  - simpl. discriminate.
Defined.

(** ** Lists and detail pages *)

(** X16.  The detail pages open exactly what the lists show.  For an
    authenticated actor, a stored patient is rendered by [patient_detail]
    if and only if the unfiltered [patients_list] contains it, and a
    stored analysis whose patient row exists is rendered by
    [analysis_detail] if and only if the unfiltered [analyses_list]
    contains it. *)
Theorem detail_pages_match_lists user st :
  (forall id p,
      find_patient id st = Some p ->
      (patient_detail (Account user) id st
       = Render "medical_lab/patient_detail.html"
       <-> exists ps,
             patients_list (Account user) (fun _ => true) st = Some ps
             /\ In p ps))
  /\ (forall id a,
        find_analysis id st = Some a ->
        find_patient (a_patient a) st <> None ->
        (analysis_detail (Account user) id st
         = Render "medical_lab/analysis_detail.html"
         <-> exists xs,
               analyses_list (Account user) (fun _ => true) st = Some xs
               /\ In a xs)).
Proof.
  assert (Hall : forall (A : Type) (l : list A) x,
             In x (filter (fun _ => true) l) <-> In x l).
  { intros A l x. rewrite filter_In. tauto. }
  split.
  - intros id p Hfind.
    assert (Hin : In p (patients st))
      by (unfold find_patient in Hfind; now apply find_some in Hfind).
    unfold patient_detail, patients_list, is_regular_user. rewrite Hfind.
    destruct (is_administrator user || is_moderator user); simpl.
    + split; [intros _|reflexivity].
      eexists. split; [reflexivity|]. now apply Hall.
    + destruct (created_by_is (u_pk user) p) eqn:Hown; simpl.
      * split; [intros _|reflexivity].
        eexists. split; [reflexivity|]. apply Hall, filter_In. auto.
      * split; [discriminate|].
        intros (ps & E & Hp). injection E as <-.
        rewrite Hall, filter_In in Hp. destruct Hp as [_ Hp]. congruence.
  - intros id a Hfind _.
    assert (Hin : In a (analyses st))
      by (unfold find_analysis in Hfind; now apply find_some in Hfind).
    unfold analysis_detail, analyses_list, is_regular_user. rewrite Hfind.
    destruct (is_administrator user || is_moderator user); simpl.
    + split; [intros _|reflexivity].
      eexists. split; [reflexivity|]. now apply Hall.
    + destruct (patient_created_by_is st (u_pk user) a) eqn:Hown; simpl.
      * split; [intros _|reflexivity].
        eexists. split; [reflexivity|]. apply Hall, filter_In. auto.
      * split; [discriminate|].
        intros (xs & E & Ha). injection E as <-.
        rewrite Hall, filter_In in Ha. destruct Ha as [_ Ha]. congruence.
Qed.

Lemma detail_pages_match_lists_witness :
  patient_detail (Account demo_user) 2 demo_shared_store
  = Render "medical_lab/patient_detail.html"
  /\ patient_detail (Account demo_user) 1 demo_shared_store
     <> Render "medical_lab/patient_detail.html".
Proof.
  destruct (detail_pages_match_lists demo_user demo_shared_store) as [H _].
  split.
  - apply (H 2%nat demo_own_patient eq_refl).
    eexists. split; [reflexivity|]. simpl. tauto.
  - intros E. apply (H 1%nat demo_patient eq_refl) in E.
    destruct E as (ps & E & Hin). injection E as <-.
    simpl in Hin. destruct Hin as [Hin|[]]. discriminate.
Defined.

(** ** The age as time passes *)

(** X17.  The age never goes down: read on two days, the later reading is
    at least the earlier one whenever both succeed. *)
Theorem age_never_decreases today today' self n n' :
  date_leb today today' = true ->
  Patient_age today self = Ok (Some n) ->
  Patient_age today' self = Ok (Some n') ->
  n <= n'.
Proof.
  unfold Patient_age, date_new, date_leb.
  intros Hle H H'. apply negb_true_iff in Hle.
  destruct (truthy (p_birth_date self)); simpl in H, H'; [|discriminate].
  destruct (p_birth_date self) as [|b|]; try discriminate.
  destruct (date_fields_ok (year today) (month b) (day b)); [|discriminate].
  destruct (date_fields_ok (year today') (month b) (day b)); [|discriminate].
  unfold date_ltb in Hle, H, H'. cbn [year month day] in H, H'.
  rewrite Z.ltb_irrefl, Z.eqb_refl in H, H'. cbn [orb andb] in H, H'.
  rewrite orb_false_iff, andb_false_iff, orb_false_iff, andb_false_iff,
    !Z.ltb_ge, !Z.eqb_neq in Hle.
  destruct ((month today <? month b)
            || (month today =? month b) && (day today <? day b)) eqn:E;
    injection H as <-;
    destruct ((month today' <? month b)
              || (month today' =? month b) && (day today' <? day b)) eqn:E';
    injection H' as <-;
    rewrite ?orb_true_iff, ?andb_true_iff, ?orb_false_iff, ?andb_false_iff,
      ?Z.ltb_lt, ?Z.ltb_ge, ?Z.eqb_eq, ?Z.eqb_neq in E, E';
    lia.
Qed.

Lemma age_never_decreases_witness :
  date_leb (mkdate 2024 12 31) (mkdate 2025 1 1) = true
  /\ forall n n',
       Patient_age (mkdate 2024 12 31) demo_patient = Ok (Some n) ->
       Patient_age (mkdate 2025 1 1) demo_patient = Ok (Some n') ->
       n <= n'.
Proof.
  split; [reflexivity|].
  intros n n'.
  apply (age_never_decreases (mkdate 2024 12 31) (mkdate 2025 1 1)
           demo_patient n n').
  reflexivity.
Defined.

(** X18.  What [tests.py] asserts for one patient holds for every birthday
    on 1 January and every day: the age is the difference of the years. *)
Theorem age_of_new_year_birthday y today self :
  p_birth_date self = PDate (mkdate y 1 1) ->
  date_valid today ->
  Patient_age today self = Ok (Some (year today - y)).
Proof.
  intros Hself Hvalid. unfold Patient_age. rewrite Hself. simpl.
  unfold date_valid, date_fields_ok in Hvalid.
  repeat (apply andb_prop in Hvalid as [Hvalid ?]).
  unfold date_new, date_fields_ok. rewrite Hvalid.
  match goal with H : (year today <=? 9999) = true |- _ => rewrite H end.
  simpl. unfold date_ltb. simpl.
  rewrite Z.ltb_irrefl, Z.eqb_refl. simpl.
  assert (E1 : (month today <? 1) = false) by (apply Z.ltb_ge; lia).
  assert (E2 : (day today <? 1) = false) by (apply Z.ltb_ge; lia).
  now rewrite E1, E2, andb_false_r.
Qed.

Lemma age_of_new_year_birthday_witness :
  Patient_age demo_today demo_patient = Ok (Some 35).
Proof.
  apply (age_of_new_year_birthday 1990 demo_today demo_patient);
    reflexivity.
Defined.

(** X19.  For a stored birth date that is a valid date not after today,
    and not 29 February unless this year is a leap year, the age is
    computed and is a non-negative integer. *)
Theorem age_is_defined_off_leap_day today b self :
  p_birth_date self = PDate b ->
  date_valid b -> date_valid today ->
  date_leb b today = true ->
  (month b = 2 /\ day b = 29 -> is_leap (year today) = true) ->
  exists n, Patient_age today self = Ok (Some n) /\ 0 <= n.
Proof. exact (Patient_age_defined today b self). Qed.

Lemma age_is_defined_off_leap_day_witness :
  exists n, Patient_age demo_today demo_own_patient = Ok (Some n) /\ 0 <= n.
Proof.
  apply (age_is_defined_off_leap_day demo_today (mkdate 2000 1 1)
           demo_own_patient).
  - reflexivity.
  - reflexivity.
  - reflexivity.
  - reflexivity.
  - intros [H _]. discriminate.
Defined.

(** X20.  For a patient born on a 29 February, reading the age on a later
    day raises [ValueError] exactly when the year of that day is not a leap
    year; in leap years the age is computed. *)
Theorem age_of_leap_day_birthday_fails_off_leap_years today y self :
  p_birth_date self = PDate (mkdate y 2 29) ->
  date_valid (mkdate y 2 29) -> date_valid today ->
  date_leb (mkdate y 2 29) today = true ->
  (Patient_age today self = Raise ValueError
   <-> is_leap (year today) = false).
Proof.
  intros Hself Hb Ht Hle. split.
  - intros Hfail. destruct (is_leap (year today)) eqn:L; [|reflexivity].
    destruct (Patient_age_defined today (mkdate y 2 29) self Hself Hb Ht Hle)
      as (n & Hn & _); [intros _; exact L|congruence].
  - intros L. exact (Patient_age_leap_day today y self Hself L).
Qed.

Lemma age_of_leap_day_birthday_witness :
  Patient_age demo_today (born (mkdate 1996 2 29)) = Raise ValueError.
Proof.
  apply (age_of_leap_day_birthday_fails_off_leap_years demo_today 1996
           (born (mkdate 1996 2 29))); reflexivity.
Defined.

(** X21.  For a regular account that has a birth date not after today and
    owns no patient, [get_or_create] as [perform_create] calls it creates
    exactly one patient linked to the account, with "User", "Unknown" and
    "O" in place of an empty surname, first name and gender; called again,
    on any day, it returns that patient and leaves the store as it is. *)
Theorem provisioning_creates_once today user b st :
  u_birth_date user = Some b ->
  date_gtb b today = false ->
  filter (created_by_is (u_pk user)) (patients st) = [] ->
  exists p st1,
    Patient_objects_get_or_create today user st = (Ok (p, true), st1)
    /\ filter (created_by_is (u_pk user)) (patients st1) = [p]
    /\ p_created_by p = u_pk user
    /\ (u_last_name user = "" -> p_last_name p = "User")
    /\ (u_first_name user = "" -> p_first_name p = "Unknown")
    /\ (u_gender user = "" -> p_gender p = "O")
    /\ forall today',
         Patient_objects_get_or_create today' user st1 = (Ok (p, false), st1).
Proof. exact (provisioning_with_birth_date today user b st). Qed.

Lemma provisioning_creates_once_witness :
  exists p st1,
    Patient_objects_get_or_create demo_today demo_dated_user demo_store
    = (Ok (p, true), st1)
    /\ filter (created_by_is (u_pk demo_dated_user)) (patients st1) = [p]
    /\ p_last_name p = "User".
Proof.
  destruct (provisioning_creates_once demo_today demo_dated_user
              (mkdate 1985 3 7) demo_store eq_refl eq_refl eq_refl)
    as (p & st1 & H1 & H2 & _ & H4 & _).
  exists p, st1. split; [exact H1|]. split; [exact H2|].
  apply H4. reflexivity.
Defined.
